(** * The prompt repository service (backend/main.py), embedded in Rocq

    The service keeps one table, [prompts], behind five HTTP endpoints and
    a start-up seeding step.  The embedding follows the source top-down:

    - text helpers: what [str.lower], SQL [ILIKE] and the JSON rendering
      of the [tags] column do to the strings the handlers pass around;
    - the table, the query builder ([select], [where], [order_by],
      [limit], [offset]) and the three statements the handlers execute;
    - the request models ([PromptCreate], the query parameters of
      [get_prompts]) with their defaults and validation;
    - the handlers themselves, written in a small state-and-error monad
      over the database;
    - the theorems about them.

    Modelling conventions.  Integers are [Z], timestamps are [Z] (a count
    of clock ticks), text is [string] over the 8-bit alphabet [ascii] in
    which only the letters A-Z and a-z have case.  The storage engine is
    the one the default [DATABASE_URL] names: backslash escapes in [LIKE]
    patterns, a negative [LIMIT] or [OFFSET] is refused.  Column widths
    ([String(255)], [Integer]) are left to the engine and are not part of
    the model.  [datetime.utcnow()] is an input of the handlers. *)

From Stdlib Require Import ZArith Ascii String List Lia.
From stdpp Require Import base option list sorting gmap strings.

Local Open Scope Z_scope.

(** ** Text *)

Section text.

(** The double quote, code 34. *)
Definition dquote : ascii := "034"%char.

(** [str.lower] on one character: A-Z go to a-z, the rest stays. *)
Definition lower_char (c : ascii) : ascii :=
  let n := N_of_ascii c in
  if ((65 <=? n) && (n <=? 90))%N then ascii_of_N (n + 32) else c.

Definition lower_chars (s : list ascii) : list ascii := map lower_char s.

(** [s.lower()] *)
Definition lower (s : string) : string :=
  string_of_list_ascii (lower_chars (list_ascii_of_string s)).

(** The three characters with a meaning of their own in a pattern. *)
Definition like_meta (c : ascii) : bool :=
  (Ascii.eqb c "%" || Ascii.eqb c "_" || Ascii.eqb c "\")%char.

(** SQL [LIKE]: [%] stands for any run of characters, [_] for exactly
    one, a backslash takes the next pattern character literally.  A
    pattern that ends in a lone backslash is an error in the engine;
    here it matches nothing (see [dangling_escape]). *)
Fixpoint like (pat txt : list ascii) {struct pat} : bool :=
  match pat with
  | [] => match txt with [] => true | _ :: _ => false end
  | c :: pat' =>
      if Ascii.eqb c "%"%char then
        (fix any (t : list ascii) : bool :=
           like pat' t || match t with [] => false | _ :: t' => any t' end) txt
      else if Ascii.eqb c "_"%char then
        match txt with [] => false | _ :: txt' => like pat' txt' end
      else if Ascii.eqb c "\"%char then
        match pat' with
        | [] => false
        | e :: pat'' =>
            match txt with
            | [] => false
            | x :: txt' => Ascii.eqb e x && like pat'' txt'
            end
        end
      else
        match txt with
        | [] => false
        | x :: txt' => Ascii.eqb c x && like pat' txt'
        end
  end.

(** Does the pattern end in a backslash that escapes nothing? *)
Fixpoint dangling_escape (pat : list ascii) : bool :=
  match pat with
  | [] => false
  | c :: pat' =>
      if Ascii.eqb c "\"%char then
        match pat' with
        | [] => true
        | _ :: pat'' => dangling_escape pat''
        end
      else dangling_escape pat'
  end.

(** [column.ilike(pattern)]: [LIKE] after folding both sides to lower
    case. *)
Definition ilike (column pattern : string) : bool :=
  like (lower_chars (list_ascii_of_string pattern))
       (lower_chars (list_ascii_of_string column)).

(** Python's [needle in haystack] on character lists. *)
Fixpoint starts_with (needle hay : list ascii) : bool :=
  match needle, hay with
  | [], _ => true
  | _ :: _, [] => false
  | a :: needle', b :: hay' => Ascii.eqb a b && starts_with needle' hay'
  end.

Fixpoint occurs_in (needle hay : list ascii) : bool :=
  starts_with needle hay
  || match hay with [] => false | _ :: hay' => occurs_in needle hay' end.

(** The term occurs in the text, case ignored. *)
Definition contains_ci (term text : string) : bool :=
  occurs_in (lower_chars (list_ascii_of_string term))
            (lower_chars (list_ascii_of_string text)).

(** *** The JSON text of a list of strings

    The [tags] column has type [JSON]: the driver stores
    [json.dumps(tags)] and [CAST(tags AS VARCHAR)] reads that text
    back.  [json.dumps] keeps the printable characters, writes the
    quote, the backslash and five control characters with a two
    character escape and everything else as [\u00XX]. *)

Definition hex_digit (n : N) : ascii :=
  if (n <? 10)%N then ascii_of_N (48 + n) else ascii_of_N (87 + n).

Definition json_char (c : ascii) : list ascii :=
  let n := N_of_ascii c in
  if Ascii.eqb c dquote then ["\"; dquote]%char
  else if Ascii.eqb c "\"%char then ["\"; "\"]%char
  else if (n =? 8)%N then ["\"; "b"]%char
  else if (n =? 12)%N then ["\"; "f"]%char
  else if (n =? 10)%N then ["\"; "n"]%char
  else if (n =? 13)%N then ["\"; "r"]%char
  else if (n =? 9)%N then ["\"; "t"]%char
  else if ((32 <=? n) && (n <=? 126))%N then [c]
  else ["\"; "u"; "0"; "0"; hex_digit (n / 16); hex_digit (n mod 16)]%char.

Definition json_string (s : string) : list ascii :=
  dquote :: flat_map json_char (list_ascii_of_string s) ++ [dquote].

Fixpoint json_items (items : list string) : list ascii :=
  match items with
  | [] => []
  | [s] => json_string s
  | s :: rest => json_string s ++ [","; " "]%char ++ json_items rest
  end.

(** [json.dumps(tags)] *)
Definition json_dumps (items : list string) : string :=
  string_of_list_ascii (("["%char :: json_items items) ++ ["]"%char]).

End text.

(** ** The [prompts] table *)

(** One row; the fields are the columns [prompts.c.id], [prompts.c.title]
    and so on, which are also the fields of [PromptResponse]. *)
Record Row := mkRow {
  c_id : Z;
  c_title : string;
  c_prompt_text : string;
  c_category : string;
  c_tags : list string;
  c_source : option string;
  c_views : Z;
  c_created_at : Z
}.

Global Instance Row_eq_dec : EqDecision Row.
Proof. solve_decision. Defined.

(** The database: the rows in the order they were inserted and the
    sequence the primary key is drawn from. *)
Record Database := mkDatabase {
  prompts : list Row;
  prompts_id_seq : Z
}.

(** After [metadata.create_all(engine)] on a fresh database. *)
Definition empty_database : Database :=
  {| prompts := []; prompts_id_seq := 1 |}.

(** ** The query builder *)

(** [prompts.select()] with the clauses added to it so far.  The only
    ordering the handlers ask for is [column.desc()] on an integer or
    timestamp column, so [order_by_clause] holds that column. *)
Record Select := mkSelect {
  whereclause : list (Row -> bool);
  order_by_clause : option (Row -> Z);
  limit_clause : option Z;
  offset_clause : option Z
}.

Definition select : Select :=
  {| whereclause := []; order_by_clause := None;
     limit_clause := None; offset_clause := None |}.

Definition where_ (cond : Row -> bool) (q : Select) : Select :=
  {| whereclause := whereclause q ++ [cond];
     order_by_clause := order_by_clause q;
     limit_clause := limit_clause q; offset_clause := offset_clause q |}.

Definition order_by_desc (column : Row -> Z) (q : Select) : Select :=
  {| whereclause := whereclause q; order_by_clause := Some column;
     limit_clause := limit_clause q; offset_clause := offset_clause q |}.

Definition limit (n : Z) (q : Select) : Select :=
  {| whereclause := whereclause q; order_by_clause := order_by_clause q;
     limit_clause := Some n; offset_clause := offset_clause q |}.

Definition offset (n : Z) (q : Select) : Select :=
  {| whereclause := whereclause q; order_by_clause := order_by_clause q;
     limit_clause := limit_clause q; offset_clause := Some n |}.

(** [sqlalchemy.or_(a, b, c)] *)
Definition or_ (a b c : Row -> bool) : Row -> bool :=
  fun r => a r || b r || c r.

(** [sqlalchemy.cast(prompts.c.tags, String)] *)
Definition cast_tags_String (r : Row) : string := json_dumps (c_tags r).

(** *** What the engine does with a [Select] *)

Definition satisfies (q : Select) (r : Row) : bool :=
  forallb (fun cond => cond r) (whereclause q).

(** [a] may come before [b] under [ORDER BY column DESC]. *)
Definition desc (column : Row -> Z) : relation Row :=
  fun a b => column b <= column a.

Global Instance desc_dec column : RelDecision (desc column).
Proof. intros a b. unfold desc. apply _. Defined.

(** [ORDER BY column DESC].  Rows that tie in [column] may come in any
    order the engine likes; the sort below is one such choice.  Where a
    property depends on the order of the answer it is either stated for
    every such choice (as sortedness or as a permutation) or for tables
    in which no two rows tie ([no_ties], [order_determined]). *)
Definition ordered (q : Select) (rows : list Row) : list Row :=
  match order_by_clause q with
  | Some column => merge_sort (desc column) rows
  | None => rows
  end.

(** [None] is the engine refusing the statement: a negative [LIMIT] or
    [OFFSET]. *)
Definition run_select (q : Select) (rows : list Row) : option (list Row) :=
  let hits := ordered q (filter (fun r => satisfies q r) rows) in
  let skip := default 0 (offset_clause q) in
  if skip <? 0 then None
  else
    match limit_clause q with
    | Some n =>
        if n <? 0 then None
        else Some (take (Z.to_nat n) (drop (Z.to_nat skip) hits))
    | None => Some (drop (Z.to_nat skip) hits)
    end.

(** ** Handlers: state and errors *)

(** How a request can fail: the framework rejecting the parameters
    (status 422), an [HTTPException] raised by a handler, or an exception
    nobody catches (status 500). *)
Inductive Failure :=
| RequestValidationError
| HTTPException (status_code : Z) (detail : string)
| InternalServerError.

Definition status (e : Failure) : Z :=
  match e with
  | RequestValidationError => 422
  | HTTPException status_code _ => status_code
  | InternalServerError => 500
  end.

Inductive Result (A : Type) :=
| Ok (a : A)
| Raise (e : Failure).
Arguments Ok {A} a.
Arguments Raise {A} e.

(** A coroutine run to completion against the database. *)
Definition Handler (A : Type) : Type := Database -> Result A * Database.

Definition ret {A} (a : A) : Handler A := fun db => (Ok a, db).

Definition raise {A} (e : Failure) : Handler A := fun db => (Raise e, db).

Definition bind {A B} (m : Handler A) (k : A -> Handler B) : Handler B :=
  fun db =>
    match m db with
    | (Ok a, db') => k a db'
    | (Raise e, db') => (Raise e, db')
    end.

Notation "x <- 'await' m ; k" := (bind m (fun x => k))
  (at level 20, m at level 100, k at level 200,
   format "'[v' x  <-  'await'  m  ; '/' k ']'").

(** [database.fetch_all(query)] *)
Definition fetch_all (q : Select) : Handler (list Row) :=
  fun db =>
    match run_select q (prompts db) with
    | Some rows => (Ok rows, db)
    | None => (Raise InternalServerError, db)
    end.

(** [database.fetch_one(query)]: the first row of the result, if any. *)
Definition fetch_one (q : Select) : Handler (option Row) :=
  fun db =>
    match run_select q (prompts db) with
    | Some rows => (Ok (head rows), db)
    | None => (Raise InternalServerError, db)
    end.

(** [database.fetch_val] of [select([func.count()]).select_from(prompts)] *)
Definition fetch_val_count : Handler Z :=
  fun db => (Ok (Z.of_nat (length (prompts db))), db).

(** [prompts.insert().values(...)]: every column but [id]. *)
Definition values (title prompt_text category : string) (tags : list string)
    (source : option string) (views created_at : Z) : Z -> Row :=
  fun id => mkRow id title prompt_text category tags source views created_at.

(** [database.execute] of an insert: the engine draws the key from the
    sequence and returns it.  The widths the columns declare are not
    checked here; what is said about stored content is said for values
    within them ([fits_columns]) or for requests the engine accepts. *)
Definition execute_insert (new_row : Z -> Row) : Handler Z :=
  fun db =>
    let id := prompts_id_seq db in
    (Ok id, {| prompts := prompts db ++ [new_row id];
               prompts_id_seq := id + 1 |}).

(** [database.execute] of [prompts.update().where(cond).values(...)] *)
Definition execute_update (cond : Row -> bool) (set : Row -> Row)
  : Handler unit :=
  fun db =>
    (Ok tt, {| prompts := map (fun r => if cond r then set r else r) (prompts db);
               prompts_id_seq := prompts_id_seq db |}).

(** [.values(views=prompts.c.views + 1)] *)
Definition views_plus_1 (r : Row) : Row :=
  mkRow (c_id r) (c_title r) (c_prompt_text r) (c_category r) (c_tags r)
        (c_source r) (c_views r + 1) (c_created_at r).

(** ** Request models *)

(** [class PromptCreate(BaseModel)] *)
Record PromptCreate := mkPromptCreate {
  title : string;
  prompt_text : string;
  category : string;
  tags : list string;
  source : option string
}.

(** The JSON body of a create request as it arrives: any key may be
    missing. *)
Record Body := mkBody {
  body_title : option string;
  body_prompt_text : option string;
  body_category : option string;
  body_tags : option (list string);
  body_source : option string
}.

(** Validation of a body against [PromptCreate]: [title], [prompt_text]
    and [category] have no default and are required, [tags] defaults to
    the empty list and [source] to [None].  The fields are plain [str]:
    nothing constrains their length. *)
Definition parse_PromptCreate (b : Body) : Result PromptCreate :=
  match body_title b, body_prompt_text b, body_category b with
  | Some t, Some p, Some c =>
      Ok {| title := t; prompt_text := p; category := c;
            tags := default [] (body_tags b); source := body_source b |}
  | _, _, _ => Raise RequestValidationError
  end.

(** The query string of a list request. *)
Record Params := mkParams {
  param_category : option string;
  param_search : option string;
  param_sort : option string;
  param_limit : option Z;
  param_offset : option Z
}.

(** The pattern [^(date|popularity)$], anchored at both ends of the
    value: it accepts the two words and nothing else. *)
Definition sort_regex (s : string) : bool :=
  String.eqb s "date" || String.eqb s "popularity".

(** Python's truth value of a string: empty is false. *)
Definition truthy (s : string) : bool := negb (String.eqb s EmptyString).

(** ** The endpoints *)

(** [create_prompt]; [now] is what [datetime.utcnow()] returns. *)
Definition create_prompt (prompt : PromptCreate) (now : Z) : Handler Row :=
  let query :=
    values (title prompt) (prompt_text prompt) (category prompt)
           (tags prompt) (source prompt) 0 now in
  last_record_id <- await execute_insert query ;
  let select_query :=
    where_ (fun r => c_id r =? last_record_id) select in
  result <- await fetch_one select_query ;
  match result with
  | Some row => ret row
  | None => raise InternalServerError
  end.

(** [get_prompts], after the framework has filled in the defaults and
    checked [sort] and [limit]. *)
Definition get_prompts (category search : option string) (sort : string)
    (limit_ offset_ : Z) : Handler (list Row) :=
  let query := select in
  let query :=
    match category with
    | Some category =>
        if truthy category
        then where_ (fun r => String.eqb (c_category r) category) query
        else query
    | None => query
    end in
  let query :=
    match search with
    | Some search =>
        if truthy search then
          let search_term := ("%" ++ lower search ++ "%")%string in
          where_ (or_ (fun r => ilike (c_title r) search_term)
                      (fun r => ilike (c_prompt_text r) search_term)
                      (fun r => ilike (cast_tags_String r) search_term))
                 query
        else query
    | None => query
    end in
  let query :=
    if String.eqb sort "popularity"
    then order_by_desc c_views query
    else order_by_desc c_created_at query in
  let query := offset offset_ (limit limit_ query) in
  results <- await fetch_all query ;
  ret results.

(** [get_prompt] *)
Definition get_prompt (prompt_id : Z) : Handler Row :=
  let query := where_ (fun r => c_id r =? prompt_id) select in
  result <- await fetch_one query ;
  match result with
  | None => raise (HTTPException 404 "Prompt not found")
  | Some _ =>
      _ <- await execute_update (fun r => c_id r =? prompt_id) views_plus_1 ;
      updated_result <- await fetch_one query ;
      match updated_result with
      | Some row => ret row
      | None => raise InternalServerError
      end
  end.

(** [get_categories]: [select([prompts.c.category]).distinct()] *)
Definition get_categories : Handler (list string) :=
  fun db => (Ok (remove_dups (map c_category (prompts db))), db).

(** [class PromptStats(BaseModel)] *)
Record PromptStats := mkPromptStats {
  total_prompts : Z;
  categories : gmap string Z
}.

(** The rows of the [group_by(prompts.c.category)] query: each category
    with the number of rows that have it. *)
Definition fetch_all_category_counts : Handler (list (string * Z)) :=
  fun db =>
    let cats := map c_category (prompts db) in
    (Ok (map (fun c => (c, Z.of_nat (length (filter (fun x => x = c) cats))))
             (remove_dups cats)),
     db).

(** [get_stats] *)
Definition get_stats : Handler PromptStats :=
  total <- await fetch_val_count ;
  category_results <- await fetch_all_category_counts ;
  let categories_dict : gmap string Z := list_to_map category_results in
  ret {| total_prompts := total; categories := categories_dict |}.

(** ** The seeder *)

(** [for k, x in enumerate(items, start): await body(k, x)] *)
Fixpoint for_each {A} (start : nat) (items : list A)
    (body : nat -> A -> Handler unit) : Handler unit :=
  match items with
  | [] => ret tt
  | x :: rest => _ <- await body start x ; for_each (S start) rest body
  end.

Section seeder.

(** The thirty-two prompt bodies of the catalog, by position.  They are
    long triple-quoted texts; nothing below depends on what they say. *)
Variable texts : nat -> string.

Definition entry (title prompt_text category : string) (tags : list string)
    (source : string) : PromptCreate :=
  mkPromptCreate title prompt_text category tags (Some source).

Definition example_prompts : list PromptCreate :=
  [ entry "API Data Extraction - Social Media Posts"
      (texts 0) "Data Collection > Data Extraction & APIs"
      ["api"; "data-extraction"; "web-scraping"; "python"]
      "Custom";
    entry "Web Scraping for Research Data"
      (texts 1) "Data Collection > Data Extraction & APIs"
      ["web-scraping"; "beautifulsoup"; "data-collection"; "ethics"]
      "Custom";
    entry "Survey Data Export & API Integration"
      (texts 2) "Data Collection > Data Extraction & APIs"
      ["survey"; "api"; "qualtrics"; "automation"]
      "Custom";
    entry "Mock Interviewer - Practice Session"
      (texts 3) "Data Collection > Interview Protocols"
      ["interview"; "mock-interview"; "career"; "practice"]
      "Adapted from Wolfram PromptRepository - MockInterviewer";
    entry "Semi-Structured Interview Guide Generator"
      (texts 4) "Data Collection > Interview Protocols"
      ["qualitative"; "interview-guide"; "research-methods"; "semi-structured"]
      "Custom";
    entry "Interview Consent Script Generator"
      (texts 5) "Data Collection > Interview Protocols"
      ["ethics"; "consent"; "irb"; "qualitative-research"]
      "Custom";
    entry "Text Cleaning Pipeline for Social Media Data"
      (texts 6) "Data Preparation > Text Preprocessing"
      ["nlp"; "text-cleaning"; "preprocessing"; "social-media"]
      "Custom";
    entry "Stopword Removal with Context Preservation"
      (texts 7) "Data Preparation > Text Preprocessing"
      ["stopwords"; "nlp"; "text-processing"]
      "Custom";
    entry "Text Normalization for Cross-Cultural Analysis"
      (texts 8) "Data Preparation > Text Preprocessing"
      ["normalization"; "cross-cultural"; "text-standardization"]
      "Custom";
    entry "Survey Response Data Validation"
      (texts 9) "Data Preparation > Data Cleaning"
      ["survey"; "data-quality"; "validation"; "missing-data"]
      "Custom";
    entry "Interview Transcript Quality Check"
      (texts 10) "Data Preparation > Data Cleaning"
      ["qualitative"; "transcription"; "data-quality"; "interviews"]
      "Custom";
    entry "Dataset Merge & Deduplication"
      (texts 11) "Data Preparation > Data Cleaning"
      ["data-merge"; "deduplication"; "longitudinal"; "data-management"]
      "Custom";
    entry "Qualitative Data Coding Structure"
      (texts 12) "Data Preparation > Data Formatting"
      ["qualitative"; "coding"; "data-organization"; "structure"]
      "Custom";
    entry "Survey Data Restructuring - Long to Wide Format"
      (texts 13) "Data Preparation > Data Formatting"
      ["data-transformation"; "survey"; "longitudinal"; "pandas"]
      "Custom";
    entry "Citation Data Formatting for Meta-Analysis"
      (texts 14) "Data Preparation > Data Formatting"
      ["meta-analysis"; "citations"; "systematic-review"; "bibliography"]
      "Custom";
    entry "Academic Article Summarizer"
      (texts 15) "Text Analysis > Text Summarization"
      ["academic"; "literature-review"; "summarization"]
      "Adapted from Wolfram PromptRepository - SummarizeContent";
    entry "Web Article Summarizer for Research"
      (texts 16) "Text Analysis > Text Summarization"
      ["web-content"; "research"; "url-summary"]
      "Adapted from Wolfram PromptRepository - SummarizeContent";
    entry "Multi-Document Synthesis for Literature Review"
      (texts 17) "Text Analysis > Text Summarization"
      ["synthesis"; "literature-review"; "meta-summary"]
      "Custom";
    entry "Social Media Post Classifier"
      (texts 18) "Text Analysis > Text Classification"
      ["classification"; "social-media"; "content-analysis"]
      "Custom";
    entry "Survey Open-Ended Response Categorizer"
      (texts 19) "Text Analysis > Text Classification"
      ["survey"; "open-ended"; "categorization"; "coding"]
      "Custom";
    entry "News Article Topic Classifier"
      (texts 20) "Text Analysis > Text Classification"
      ["news"; "media-analysis"; "topic-modeling"]
      "Custom";
    entry "Advanced Sentiment Analysis with Context"
      (texts 21) "Text Analysis > Sentiment Analysis"
      ["sentiment"; "emotion"; "nlp"; "text-analysis"]
      "Adapted from Wolfram PromptRepository - SentimentAnalyze";
    entry "Comparative Sentiment Across Time Periods"
      (texts 22) "Text Analysis > Sentiment Analysis"
      ["longitudinal"; "trend-analysis"; "time-series"; "sentiment"]
      "Custom";
    entry "Multi-Lingual Sentiment Analysis"
      (texts 23) "Text Analysis > Sentiment Analysis"
      ["multilingual"; "cross-cultural"; "sentiment"; "translation"]
      "Custom";
    entry "Word Frequency Analysis with Context"
      (texts 24) "Text Analysis > Word Frequency & Patterns"
      ["frequency"; "corpus-analysis"; "text-mining"; "keywords"]
      "Custom";
    entry "Collocation and Co-occurrence Analysis"
      (texts 25) "Text Analysis > Word Frequency & Patterns"
      ["collocation"; "co-occurrence"; "corpus-linguistics"]
      "Custom";
    entry "Linguistic Pattern Mining for Discourse Analysis"
      (texts 26) "Text Analysis > Word Frequency & Patterns"
      ["discourse-analysis"; "linguistic-patterns"; "corpus-linguistics"]
      "Custom";
    entry "Literature Review Section Generator"
      (texts 27) "Academic Writing > Literature Review"
      ["literature-review"; "academic-writing"; "research-paper"]
      "Custom";
    entry "Research Paper Abstract Generator"
      (texts 28) "Academic Writing > Research Papers"
      ["abstract"; "academic-writing"; "publication"]
      "Custom";
    entry "Research Report Executive Summary"
      (texts 29) "Academic Writing > Reports & Presentations"
      ["executive-summary"; "policy"; "research-report"]
      "Custom";
    entry "LLM Fine-Tuning Data Preparation Guide"
      (texts 30) "Advanced Methods > Model Fine-tuning"
      ["llm"; "fine-tuning"; "machine-learning"; "ai"]
      "Custom";
    entry "API Integration Workflow for Research Automation"
      (texts 31) "Advanced Methods > Custom API Integration"
      ["api"; "automation"; "research-workflow"; "python"]
      "Custom" ]%string.

(** [seed_database]; [clock k] is what [datetime.utcnow()] returns in
    round [k] of the loop. *)
Definition seed_database (clock : nat -> Z) : Handler unit :=
  count <- await fetch_val_count ;
  if 0 <? count then ret tt
  else
    for_each 0 example_prompts (fun k prompt_data =>
      let query :=
        values (title prompt_data) (prompt_text prompt_data)
               (category prompt_data) (tags prompt_data)
               (source prompt_data) 0 (clock k) in
      _ <- await execute_insert query ;
      ret tt).

End seeder.

(** ** The API layer *)

(** [POST /api/prompts]: the body is validated against [PromptCreate]
    before [create_prompt] runs. *)
Definition post_prompts (body : Body) (now : Z) : Handler Row :=
  match parse_PromptCreate body with
  | Ok prompt => create_prompt prompt now
  | Raise e => raise e
  end.

(** [GET /api/prompts]: the declared defaults, [Query("date", regex=...)]
    and [Query(100, le=500)], then [get_prompts]. *)
Definition list_prompts (p : Params) : Handler (list Row) :=
  let sort := default "date"%string (param_sort p) in
  let limit_ := default 100 (param_limit p) in
  let offset_ := default 0 (param_offset p) in
  if negb (sort_regex sort) then raise RequestValidationError
  else if negb (limit_ <=? 500) then raise RequestValidationError
  else get_prompts (param_category p) (param_search p) sort limit_ offset_.

(** Everything the service does to its database: the five routes and
    the start-up hook. *)
Inductive Request :=
| POST_prompts (body : Body) (now : Z)
| GET_prompts (p : Params)
| GET_prompt (prompt_id : Z)
| GET_categories
| GET_stats
| Startup (clock : nat -> Z).

Inductive Response :=
| OnePrompt (row : Row)
| ManyPrompts (rows : list Row)
| CategoryList (names : list string)
| Stats (stats : PromptStats)
| NoContent.

Definition fmap_handler {A B} (f : A -> B) (m : Handler A) : Handler B :=
  x <- await m ; ret (f x).

Definition serve (texts : nat -> string) (req : Request) : Handler Response :=
  match req with
  | POST_prompts body now => fmap_handler OnePrompt (post_prompts body now)
  | GET_prompts p => fmap_handler ManyPrompts (list_prompts p)
  | GET_prompt prompt_id => fmap_handler OnePrompt (get_prompt prompt_id)
  | GET_categories => fmap_handler CategoryList get_categories
  | GET_stats => fmap_handler Stats get_stats
  | Startup clock => fmap_handler (fun _ => NoContent) (seed_database texts clock)
  end.

(** A row with [id] is stored. *)
Definition present (id : Z) (db : Database) : Prop :=
  exists r, r ∈ prompts db /\ c_id r = id.

(** The keys are distinct and all below the next value of the sequence:
    what the primary key and the sequence guarantee. *)
Definition consistent (db : Database) : Prop :=
  NoDup (map c_id (prompts db))
  /\ Forall (fun r => c_id r < prompts_id_seq db) (prompts db).

(** The row [r] with its [views] column set to [v]. *)
Definition with_views (v : Z) (r : Row) : Row :=
  mkRow (c_id r) (c_title r) (c_prompt_text r) (c_category r) (c_tags r)
        (c_source r) v (c_created_at r).

(** The database after [n] fetches of the same prompt in a row. *)
Fixpoint after_fetches (n : nat) (prompt_id : Z) (db : Database) : Database :=
  match n with
  | O => db
  | S n' => snd (get_prompt prompt_id (after_fetches n' prompt_id db))
  end.

(** What the [UPDATE] of [get_prompt] does to the table. *)
Definition count_view (prompt_id : Z) (db : Database) : Database :=
  {| prompts := map (fun r => if c_id r =? prompt_id then views_plus_1 r else r)
                    (prompts db);
     prompts_id_seq := prompts_id_seq db |}.


(** ** Sample data for the concrete instances below *)

Definition hello_row : Row :=
  mkRow 1 "T" "hello world" "X" [] None 0 10.

Definition mental_row : Row :=
  mkRow 2 "Coping strategies" "Questions about Mental Health support"
        "Y" ["survey"; "wellbeing"]%string (Some "Custom"%string) 3 20.

Definition sample_db : Database :=
  {| prompts := [hello_row; mental_row]; prompts_id_seq := 3 |}.

Global Instance consistent_dec db : Decision (consistent db).
Proof. unfold consistent. apply _. Defined.

(** ** The list query, clause by clause *)

(** The [WHERE] condition [get_prompts] adds for [category]. *)
Definition category_clause (category : option string) (r : Row) : bool :=
  match category with
  | Some category =>
      if truthy category then String.eqb (c_category r) category else true
  | None => true
  end.

(** The [WHERE] condition [get_prompts] adds for [search]. *)
Definition search_clause (search : option string) (r : Row) : bool :=
  match search with
  | Some search =>
      if truthy search then
        let search_term := ("%" ++ lower search ++ "%")%string in
        ilike (c_title r) search_term
        || ilike (c_prompt_text r) search_term
        || ilike (cast_tags_String r) search_term
      else true
  | None => true
  end.

(** The column [get_prompts] orders by. *)
Definition sort_column (sort : string) : Row -> Z :=
  if String.eqb sort "popularity" then c_views else c_created_at.

(** [LIMIT limit_ OFFSET offset_] on a result. *)
Definition page (limit_ offset_ : Z) (rows : list Row) : list Row :=
  take (Z.to_nat limit_) (drop (Z.to_nat offset_) rows).

(** The rows that pass both conditions, in the order asked for, before
    the page is cut out. *)
Definition selection (category search : option string) (sort : string)
    (db : Database) : list Row :=
  merge_sort (desc (sort_column sort))
    (filter (fun r => category_clause category r && search_clause search r)
            (prompts db)).

(** Later rows never have a larger value in [column] than earlier ones. *)
Definition non_increasing (column : Row -> Z) (rows : list Row) : Prop :=
  forall (i j : nat) (a b : Row),
    (i <= j)%nat -> rows !! i = Some a -> rows !! j = Some b ->
    column b <= column a.

(** The search contract in the words of the specification: the term
    occurs, case ignored, in the title, in the prompt text or in the
    text of the tags. *)
Definition matches_search (term : string) (r : Row) : bool :=
  contains_ci term (c_title r)
  || contains_ci term (c_prompt_text r)
  || contains_ci term (cast_tags_String r).

(** The term has none of the pattern characters [%], [_] and backslash. *)
Definition meta_free (term : string) : bool :=
  forallb (fun c => negb (like_meta c)) (list_ascii_of_string term).

(** ** Query parameters after the defaults *)

Definition sort_of (p : Params) : string := default "date"%string (param_sort p).
Definition limit_of (p : Params) : Z := default 100 (param_limit p).
Definition offset_of (p : Params) : Z := default 0 (param_offset p).

Definition with_category (category : option string) (p : Params) : Params :=
  mkParams category (param_search p) (param_sort p) (param_limit p)
           (param_offset p).

Definition with_search (search : option string) (p : Params) : Params :=
  mkParams (param_category p) search (param_sort p) (param_limit p)
           (param_offset p).

Definition with_limit (limit_ : option Z) (p : Params) : Params :=
  mkParams (param_category p) (param_search p) (param_sort p) limit_
           (param_offset p).

(** A request with no parameter at all. *)
Definition no_params : Params := mkParams None None None None None.

(** The category condition in the words of the specification: an exact
    match when a category is given. *)
Definition category_is (category : option string) (r : Row) : bool :=
  match category with
  | Some category => String.eqb (c_category r) category
  | None => true
  end.

(** ** Creating and seeding, as data *)

(** The row a create request turns into, given its key and the time. *)
Definition new_row (prompt : PromptCreate) (id now : Z) : Row :=
  mkRow id (title prompt) (prompt_text prompt) (category prompt)
        (tags prompt) (source prompt) 0 now.

(** The database with one more row and the sequence advanced. *)
Definition inserted (row : Row) (db : Database) : Database :=
  {| prompts := prompts db ++ [row];
     prompts_id_seq := prompts_id_seq db + 1 |}.

(** The rows the seeding loop inserts, from round [k] and key [id] on. *)
Fixpoint seeded_rows (clock : nat -> Z) (k : nat) (id : Z)
    (items : list PromptCreate) : list Row :=
  match items with
  | [] => []
  | e :: rest => new_row e id (clock k) :: seeded_rows clock (S k) (id + 1) rest
  end.

(** A body with empty strings in the required fields. *)
Definition blank_body : Body :=
  mkBody (Some EmptyString) (Some EmptyString) (Some "X"%string) None None.

(** The body of the end-to-end example: no [tags], no [source]. *)
Definition hello_body : Body :=
  mkBody (Some "T"%string) (Some "hello world"%string) (Some "X"%string)
         None None.

(** A body without [title]. *)
Definition untitled_body : Body :=
  mkBody None (Some "hello world"%string) (Some "X"%string) None None.

(** One round of the loop in [seed_database]. *)
Definition seed_round (clock : nat -> Z) (k : nat) (prompt_data : PromptCreate)
  : Handler unit :=
  _ <- await execute_insert
         (values (title prompt_data) (prompt_text prompt_data)
                 (category prompt_data) (tags prompt_data)
                 (source prompt_data) 0 (clock k)) ;
  ret tt.

(** The database after serving the requests one after the other. *)
Definition serve_all (texts : nat -> string) (reqs : list Request)
    (db : Database) : Database :=
  fold_left (fun db req => snd (serve texts req db)) reqs db.

(** The database with [rows] appended and the sequence advanced by their
    number. *)
Definition extended (rows : list Row) (db : Database) : Database :=
  {| prompts := prompts db ++ rows;
     prompts_id_seq := prompts_id_seq db + Z.of_nat (length rows) |}.

(** A clock for the examples: round [k] reads [100 + k]. *)
Definition sample_clock (k : nat) : Z := 100 + Z.of_nat k.

(** Placeholder bodies for the examples. *)
Definition sample_texts (k : nat) : string := "..."%string.

(** ** Categories and counts *)

(** The values of the [category] column, row by row. *)
Definition category_column (db : Database) : list string :=
  map c_category (prompts db).

(** The number of rows whose category is [c]. *)
Definition category_count (c : string) (db : Database) : Z :=
  Z.of_nat (length (filter (fun x => x = c) (category_column db))).

(** Python's [sum(categories.values())]. *)
Definition sum_values (m : gmap string Z) : Z :=
  map_fold (fun _ n acc => n + acc) 0 m.

(** The sum of [F] over the names in [ks]. *)
Definition sum_over (ks : list string) (F : string -> Z) : Z :=
  foldr (fun c acc => F c + acc) 0 ks.

(** ** Counting fetches *)

(** The number of requests in [reqs] that fetch the prompt [prompt_id]. *)
Fixpoint fetches_of (prompt_id : Z) (reqs : list Request) : nat :=
  match reqs with
  | [] => 0
  | GET_prompt id :: rest =>
      ((if (id =? prompt_id)%Z then 1 else 0) + fetches_of prompt_id rest)%nat
  | _ :: rest => fetches_of prompt_id rest
  end.

(** What the [UPDATE] of [get_prompt] does to one row. *)
Definition count_view_row (prompt_id : Z) (r : Row) : Row :=
  if c_id r =? prompt_id then views_plus_1 r else r.

(** ** More parameters *)

Definition with_sort (sort : option string) (p : Params) : Params :=
  mkParams (param_category p) (param_search p) sort (param_limit p)
           (param_offset p).

(** The request for [limit_] rows from [offset_] on. *)
Definition with_page (limit_ offset_ : Z) (p : Params) : Params :=
  mkParams (param_category p) (param_search p) (param_sort p) (Some limit_)
           (Some offset_).

(** The term has no backslash. *)
Definition backslash_free (term : string) : bool :=
  forallb (fun c => negb (Ascii.eqb c "\"%char)) (list_ascii_of_string term).

(** A character [json.dumps] writes as itself: printable, and neither
    the quote nor the backslash. *)
Definition json_plain (c : ascii) : bool :=
  let n := N_of_ascii c in
  ((32 <=? n) && (n <=? 126))%N
  && negb (Ascii.eqb c dquote) && negb (Ascii.eqb c "\"%char).

(** The text consists of such characters. *)
Definition plain_text (s : string) : bool :=
  forallb json_plain (list_ascii_of_string s).

(** ** Column widths and ties *)

(** The widths the table declares: [title] is [String(255)], [category]
    is [String(100)], [source] is [String(255)]; [prompt_text] is [Text]
    and [tags] is [JSON], both without a width. *)
Definition fits_columns (title category : string) (source : option string)
  : bool :=
  (String.length title <=? 255)%nat
  && (String.length category <=? 100)%nat
  && match source with
     | Some s => (String.length s <=? 255)%nat
     | None => true
     end.

(** The rows that pass the two [WHERE] conditions, in table order. *)
Definition matching (category search : option string) (db : Database)
  : list Row :=
  filter (fun r => category_clause category r && search_clause search r)
         (prompts db).

(** No two stored rows have the same value in [column], so that
    [ORDER BY column] leaves the engine no choice. *)
Definition no_ties (column : Row -> Z) (db : Database) : Prop :=
  forall a b, a ∈ prompts db -> b ∈ prompts db -> column a = column b -> a = b.

(** * Properties *)

(** Closes a decidable goal on concrete data by evaluating its decision
    procedure. *)
Ltac by_evaluation := apply (bool_decide_unpack _); by vm_compute.

(** ** Text helpers on examples *)

Example lower_demo : lower "Mental Health" = "mental health"%string.
Proof. reflexivity. Qed.

Example json_dumps_demo :
  list_ascii_of_string (json_dumps ["api"; "web-scraping"]%string)
  = ["["; dquote; "a"; "p"; "i"; dquote; ","; " "; dquote; "w"; "e"; "b"; "-";
     "s"; "c"; "r"; "a"; "p"; "i"; "n"; "g"; dquote; "]"]%char.
Proof. reflexivity. Qed.

Example ilike_demo :
  ilike "Mental Health" "%mental%" = true
  /\ ilike "abc" "%a_c%" = true
  /\ ilike "abc" "%a\_c%" = false
  /\ ilike "a_c" "%a\_c%" = true.
Proof. repeat split. Qed.

(** ** Point queries *)

Section point_queries.

Implicit Types (db : Database) (r : Row) (rows : list Row).

Lemma run_select_where (cond : Row -> bool) rows :
  run_select (where_ cond select) rows = Some (filter (fun r => cond r) rows).
Proof.
  unfold run_select, ordered; simpl. rewrite drop_0. f_equal.
  apply list_filter_iff. intros r. unfold satisfies; simpl.
  by rewrite andb_true_r.
Qed.

Lemma fetch_one_where (cond : Row -> bool) db :
  fetch_one (where_ cond select) db
  = (Ok (head (filter (fun r => cond r) (prompts db))), db).
Proof. unfold fetch_one. by rewrite run_select_where. Qed.

Lemma filter_id_absent prompt_id rows :
  (forall r, r ∈ rows -> c_id r <> prompt_id) ->
  filter (fun r => c_id r =? prompt_id) rows = [].
Proof.
  intros Hno. induction rows as [|x rows IH]; [done|].
  rewrite filter_cons. destruct (decide _) as [Hx|_].
  - apply Is_true_true, Z.eqb_eq in Hx.
    exfalso. apply (Hno x); [left | done].
  - apply IH. intros r Hr. apply Hno. by right.
Qed.

Lemma head_filter_id_unique rows r :
  NoDup (map c_id rows) -> r ∈ rows ->
  head (filter (fun x => c_id x =? c_id r) rows) = Some r.
Proof.
  induction rows as [|x rows IH]; intros Hnd Hin.
  - by apply elem_of_nil in Hin.
  - simpl in Hnd. apply NoDup_cons in Hnd as [Hx Hnd].
    rewrite filter_cons. apply elem_of_cons in Hin as [->|Hin].
    + rewrite decide_True; [done|]. apply Is_true_true, Z.eqb_refl.
    + rewrite decide_False; [by apply IH|].
      intros Heq%Is_true_true%Z.eqb_eq. apply Hx.
      rewrite Heq. apply list_elem_of_fmap. by exists r.
Qed.

Lemma filter_id_count_view prompt_id rows :
  filter (fun r => c_id r =? prompt_id)
         (map (fun r => if c_id r =? prompt_id then views_plus_1 r else r) rows)
  = map views_plus_1 (filter (fun r => c_id r =? prompt_id) rows).
Proof.
  induction rows as [|x rows IH]; [done|].
  simpl. rewrite !filter_cons.
  destruct (c_id x =? prompt_id) eqn:Hx.
  - simpl. rewrite Hx. simpl. by rewrite IH.
  - rewrite Hx. simpl. by rewrite IH.
Qed.

Lemma execute_update_views prompt_id db :
  execute_update (fun r => c_id r =? prompt_id) views_plus_1 db
  = (Ok tt, count_view prompt_id db).
Proof. reflexivity. Qed.

(** [get_prompt] in one step: the first row with the key decides. *)
Lemma get_prompt_unfold prompt_id db :
  get_prompt prompt_id db
  = match head (filter (fun r => c_id r =? prompt_id) (prompts db)) with
    | Some r => (Ok (views_plus_1 r), count_view prompt_id db)
    | None => (Raise (HTTPException 404 "Prompt not found"), db)
    end.
Proof.
  unfold get_prompt, bind. rewrite fetch_one_where.
  destruct (head _) as [r|] eqn:Hhead; [|done].
  rewrite execute_update_views, fetch_one_where.
  cbn [count_view prompts]. rewrite filter_id_count_view.
  destruct (filter _ (prompts db)) as [|y ys]; [done|].
  simpl in *. by injection Hhead as ->.
Qed.

Lemma count_view_ids prompt_id db :
  map c_id (prompts (count_view prompt_id db)) = map c_id (prompts db).
Proof.
  simpl. rewrite map_map. apply map_ext. intros r. by destruct (_ =? _).
Qed.

Lemma count_view_consistent prompt_id db :
  consistent db -> consistent (count_view prompt_id db).
Proof.
  intros [Hnd Hlt]. split.
  - by rewrite count_view_ids.
  - simpl. apply Forall_forall. intros x Hx.
    apply list_elem_of_fmap in Hx as (y & -> & Hy).
    rewrite Forall_forall in Hlt. specialize (Hlt y Hy).
    by destruct (_ =? _).
Qed.

Lemma count_view_elem prompt_id db r :
  r ∈ prompts db ->
  (if c_id r =? prompt_id then views_plus_1 r else r)
    ∈ prompts (count_view prompt_id db).
Proof.
  intros Hr. simpl.
  apply (list_elem_of_fmap_2
           (fun r => if c_id r =? prompt_id then views_plus_1 r else r)).
  exact Hr.
Qed.

Lemma get_prompt_present db r :
  consistent db -> r ∈ prompts db ->
  get_prompt (c_id r) db = (Ok (views_plus_1 r), count_view (c_id r) db).
Proof.
  intros [Hnd _] Hr. rewrite get_prompt_unfold.
  by rewrite (head_filter_id_unique _ _ Hnd Hr).
Qed.

Lemma after_fetches_spec (n : nat) db r :
  consistent db -> r ∈ prompts db ->
  consistent (after_fetches n (c_id r) db)
  /\ with_views (c_views r + Z.of_nat n) r ∈ prompts (after_fetches n (c_id r) db).
Proof.
  intros Hc Hr. induction n as [|n [IHc IHr]].
  - split; [done|]. simpl. rewrite Z.add_0_r. by destruct r.
  - cbn [after_fetches].
    pose proof (get_prompt_present _ _ IHc IHr) as Hget.
    cbn [with_views c_id] in Hget. rewrite Hget. cbn [snd].
    split; [by apply count_view_consistent|].
    pose proof (count_view_elem (c_id r) _ _ IHr) as Hel.
    cbn [with_views c_id] in Hel. rewrite Z.eqb_refl in Hel.
    unfold views_plus_1 in Hel. cbn in Hel.
    replace (c_views r + Z.of_nat (S n)) with (c_views r + Z.of_nat n + 1) by lia.
    exact Hel.
Qed.

End point_queries.

(** ** Reading one prompt *)

(** C1: for a stored prompt, [get_prompt] returns that record with
    [views] one higher than the stored value, the stored record carries
    the new count, and fetch number [n + 1] in a row returns the initial
    count plus [n + 1]. *)
Theorem get_prompt_increments_views (db : Database) (r : Row) (n : nat) :
  consistent db ->
  r ∈ prompts db ->
  fst (get_prompt (c_id r) db) = Ok (with_views (c_views r + 1) r)
  /\ with_views (c_views r + 1) r ∈ prompts (snd (get_prompt (c_id r) db))
  /\ fst (get_prompt (c_id r) (after_fetches n (c_id r) db))
     = Ok (with_views (c_views r + Z.of_nat (S n)) r).
Proof.
  intros Hc Hr. split; [|split].
  - by rewrite (get_prompt_present _ _ Hc Hr).
  - rewrite (get_prompt_present _ _ Hc Hr). cbn [snd].
    pose proof (count_view_elem (c_id r) _ _ Hr) as Hel.
    by rewrite Z.eqb_refl in Hel.
  - destruct (after_fetches_spec n db r Hc Hr) as [Hc' Hr'].
    pose proof (get_prompt_present _ _ Hc' Hr') as Hget.
    cbn [with_views c_id] in Hget. rewrite Hget. cbn [fst].
    unfold views_plus_1, with_views. cbn. do 2 f_equal. lia.
Qed.

Lemma get_prompt_increments_views_witness :
  consistent sample_db
  /\ mental_row ∈ prompts sample_db
  /\ fst (get_prompt 2 sample_db) = Ok (with_views 4 mental_row)
  /\ with_views 4 mental_row ∈ prompts (snd (get_prompt 2 sample_db))
  /\ fst (get_prompt 2 (after_fetches 4 2 sample_db))
     = Ok (with_views 8 mental_row).
Proof.
  assert (Hc : consistent sample_db) by by_evaluation.
  assert (Hr : mental_row ∈ prompts sample_db) by (right; left).
  split; [exact Hc|]. split; [exact Hr|].
  exact (get_prompt_increments_views sample_db mental_row 4 Hc Hr).
Defined.

(** C7: for a key that is not stored, [get_prompt] raises the 404
    [HTTPException], which is not the validation error and has another
    status, and the database is the one it started from. *)
Theorem get_prompt_not_found (db : Database) (prompt_id : Z) :
  ~ present prompt_id db ->
  get_prompt prompt_id db
  = (Raise (HTTPException 404 "Prompt not found"), db)
  /\ status (HTTPException 404 "Prompt not found") = 404
  /\ HTTPException 404 "Prompt not found" <> RequestValidationError
  /\ status (HTTPException 404 "Prompt not found")
     <> status RequestValidationError.
Proof.
  intros Habsent. split; [|by repeat split].
  rewrite get_prompt_unfold, filter_id_absent; [done|].
  intros r Hr Hid. apply Habsent. by exists r.
Qed.

Lemma get_prompt_not_found_witness :
  ~ present 7 sample_db
  /\ get_prompt 7 sample_db
     = (Raise (HTTPException 404 "Prompt not found"), sample_db).
Proof.
  assert (Habsent : ~ present 7 sample_db).
  { intros (r & Hr & Hid). cbn in Hr.
    repeat (apply elem_of_cons in Hr as [->|Hr]; [discriminate Hid|]).
    by apply elem_of_nil in Hr. }
  split; [exact Habsent|].
  exact (proj1 (get_prompt_not_found sample_db 7 Habsent)).
Defined.

(** ** Listing prompts *)

Section listing.

Implicit Types (db : Database) (r : Row) (rows : list Row).

Global Instance desc_total column : Total (desc column).
Proof. intros a b. unfold desc. lia. Qed.

Global Instance desc_trans column : Transitive (desc column).
Proof. intros a b c. unfold desc. lia. Qed.

Lemma StronglySorted_lookup_lt (R : relation Row) rows (i j : nat) a b :
  StronglySorted R rows -> (i < j)%nat ->
  rows !! i = Some a -> rows !! j = Some b -> R a b.
Proof.
  intros Hs. revert i j. induction Hs as [|x l Hs IH Hall]; intros i j Hij Hi Hj.
  - by rewrite lookup_nil in Hi.
  - destruct j as [|j]; [lia|]. destruct i as [|i].
    + injection Hi as <-. rewrite Forall_forall in Hall. apply Hall.
      by apply list_elem_of_lookup_2 with j.
    + apply (IH i j); [lia|done..].
Qed.

Lemma merge_sort_non_increasing column rows :
  non_increasing column (merge_sort (desc column) rows).
Proof.
  intros i j a b Hij Hi Hj.
  destruct (decide (i = j)) as [->|Hne].
  - rewrite Hi in Hj. injection Hj as ->. lia.
  - apply (StronglySorted_lookup_lt (desc column)
             (merge_sort (desc column) rows) i j a b); [|lia|done..].
    apply StronglySorted_merge_sort; apply _.
Qed.

Lemma page_non_increasing column limit_ offset_ rows :
  non_increasing column rows -> non_increasing column (page limit_ offset_ rows).
Proof.
  intros Hs i j a b Hij Hi Hj. unfold page in *.
  apply lookup_take_Some in Hi as [Hi _]. apply lookup_take_Some in Hj as [Hj _].
  rewrite lookup_drop in Hi, Hj.
  apply (Hs (Z.to_nat offset_ + i)%nat (Z.to_nat offset_ + j)%nat); [lia|done..].
Qed.

Lemma page_length limit_ offset_ rows :
  0 <= limit_ -> Z.of_nat (length (page limit_ offset_ rows)) <= limit_.
Proof. intros Hl. unfold page. rewrite length_take. lia. Qed.

Lemma page_elem limit_ offset_ rows r :
  r ∈ page limit_ offset_ rows -> r ∈ rows.
Proof.
  unfold page. intros Hr.
  eapply elem_of_sublist; [exact Hr|].
  etrans; [apply sublist_take | apply sublist_drop].
Qed.

Lemma page_all limit_ rows :
  Z.of_nat (length rows) <= limit_ -> page limit_ 0 rows = rows.
Proof. intros Hl. unfold page. rewrite drop_0. apply take_ge. lia. Qed.

(** [get_prompts] in one step, for a page the engine accepts. *)
Lemma get_prompts_unfold category search sort limit_ offset_ db :
  0 <= limit_ -> 0 <= offset_ ->
  get_prompts category search sort limit_ offset_ db
  = (Ok (page limit_ offset_ (selection category search sort db)), db).
Proof.
  intros Hl Ho. unfold get_prompts, bind, fetch_all, run_select.
  assert (Hl' : (limit_ <? 0) = false) by lia.
  assert (Ho' : (offset_ <? 0) = false) by lia.
  unfold selection, page, sort_column, ordered.
  destruct category as [c|], search as [s|]; cbn [category_clause search_clause];
    try destruct (truthy c); try destruct (truthy s);
    destruct (String.eqb sort "popularity");
    cbn [whereclause order_by_clause limit_clause offset_clause
         where_ order_by_desc limit offset select default]; unfold id;
    rewrite Hl', Ho'; unfold ret; do 5 f_equal;
    apply list_filter_iff; intros r;
    unfold satisfies, or_, offset, limit, order_by_desc, where_, select;
    cbn [whereclause forallb app];
    rewrite ?andb_true_r, ?andb_true_l; done.
Qed.

(** A negative page is refused by the engine. *)
Lemma get_prompts_refused category search sort limit_ offset_ db :
  limit_ < 0 \/ offset_ < 0 ->
  get_prompts category search sort limit_ offset_ db
  = (Raise InternalServerError, db).
Proof.
  intros Hneg. unfold get_prompts, bind, fetch_all, run_select.
  destruct category as [c|], search as [s|];
    try destruct (truthy c); try destruct (truthy s);
    destruct (String.eqb sort "popularity");
    cbn [whereclause order_by_clause limit_clause offset_clause
         where_ order_by_desc limit offset select default]; unfold id;
    destruct (offset_ <? 0) eqn:Ho; try done;
    destruct (limit_ <? 0) eqn:Hl; try done; lia.
Qed.

End listing.

Section list_endpoint.

Implicit Types (db : Database) (p : Params).

(** [list_prompts] in one step, for parameters that pass validation and
    a page the engine accepts. *)
Lemma list_prompts_ok p db :
  sort_regex (sort_of p) = true ->
  0 <= limit_of p <= 500 ->
  0 <= offset_of p ->
  list_prompts p db
  = (Ok (page (limit_of p) (offset_of p)
           (selection (param_category p) (param_search p) (sort_of p) db)),
     db).
Proof.
  intros Hsort [Hl0 Hl] Ho. unfold list_prompts.
  fold (sort_of p) (limit_of p) (offset_of p). rewrite Hsort. cbn [negb].
  assert (Hle : (limit_of p <=? 500) = true) by lia. rewrite Hle. cbn [negb].
  by apply get_prompts_unfold.
Qed.

Lemma list_prompts_bad_sort p db :
  sort_regex (sort_of p) = false ->
  list_prompts p db = (Raise RequestValidationError, db).
Proof.
  intros Hsort. unfold list_prompts. fold (sort_of p). by rewrite Hsort.
Qed.

Lemma list_prompts_over_limit p db :
  500 < limit_of p ->
  list_prompts p db = (Raise RequestValidationError, db).
Proof.
  intros Hl. unfold list_prompts. fold (sort_of p) (limit_of p).
  destruct (sort_regex (sort_of p)); [|done]. cbn [negb].
  assert (Hle : (limit_of p <=? 500) = false) by lia. by rewrite Hle.
Qed.

(** Whatever the parameters, the database is not touched and a page has
    at most [limit] rows, [limit] being at most 500. *)
Lemma list_prompts_cases p db :
  list_prompts p db = (Raise RequestValidationError, db)
  \/ list_prompts p db = (Raise InternalServerError, db)
  \/ (0 <= limit_of p <= 500
      /\ list_prompts p db
         = (Ok (page (limit_of p) (offset_of p)
                  (selection (param_category p) (param_search p) (sort_of p) db)),
            db)).
Proof.
  destruct (sort_regex (sort_of p)) eqn:Hsort;
    [|left; by apply list_prompts_bad_sort].
  destruct (decide (500 < limit_of p)) as [Hl|Hl];
    [left; by apply list_prompts_over_limit|].
  destruct (decide (limit_of p < 0 \/ offset_of p < 0)) as [Hneg|Hpos].
  - right; left. unfold list_prompts.
    fold (sort_of p) (limit_of p) (offset_of p). rewrite Hsort. cbn [negb].
    assert (Hle : (limit_of p <=? 500) = true) by lia. rewrite Hle. cbn [negb].
    by apply get_prompts_refused.
  - right; right. split; [lia|]. apply list_prompts_ok; [done|lia..].
Qed.

Lemma sort_regex_spec (s : string) :
  sort_regex s = true <-> s = "date"%string \/ s = "popularity"%string.
Proof.
  unfold sort_regex. rewrite orb_true_iff, !String.eqb_eq. done.
Qed.

End list_endpoint.

(** C4: a page answered to a list request sorted by popularity has rows
    whose [views] never increase, one sorted by date, or with no [sort]
    at all, rows whose [created_at] never increases; with one of these
    sort modes and a page the engine accepts the request is answered;
    and every other value of [sort] is a validation error. *)
Theorem list_prompts_sorted (p : Params) (db : Database) :
  (forall rows, fst (list_prompts p db) = Ok rows ->
     (param_sort p = Some "popularity"%string -> non_increasing c_views rows)
     /\ (param_sort p = Some "date"%string \/ param_sort p = None ->
         non_increasing c_created_at rows))
  /\ (param_sort p = Some "popularity"%string
      \/ param_sort p = Some "date"%string \/ param_sort p = None ->
      0 <= limit_of p <= 500 -> 0 <= offset_of p ->
      exists rows, list_prompts p db = (Ok rows, db))
  /\ (forall s, param_sort p = Some s ->
                s <> "date"%string -> s <> "popularity"%string ->
                list_prompts p db = (Raise RequestValidationError, db)).
Proof.
  split; [|split].
  - intros rows Hrows.
    destruct (list_prompts_cases p db) as [H|[H|[_ H]]];
      rewrite H in Hrows; cbn [fst] in Hrows; try discriminate.
    injection Hrows as <-.
    split; intros Hs; apply page_non_increasing; unfold selection, sort_of.
    + rewrite Hs. apply merge_sort_non_increasing.
    + destruct Hs as [-> | ->]; apply merge_sort_non_increasing.
  - intros Hs Hl Ho. eexists. apply list_prompts_ok; [|done..].
    unfold sort_of. by destruct Hs as [-> | [-> | ->]].
  - intros s Hs Hd Hp. apply list_prompts_bad_sort.
    unfold sort_of. rewrite Hs. cbn [default from_option id].
    destruct (sort_regex s) eqn:Hre; [|done].
    apply sort_regex_spec in Hre as [?|?]; done.
Qed.

Lemma list_prompts_sorted_witness :
  fst (list_prompts (mkParams None None (Some "popularity"%string) None None)
                    sample_db)
  = Ok [mental_row; hello_row]
  /\ non_increasing c_views [mental_row; hello_row]
  /\ list_prompts (mkParams None None (Some "views"%string) None None) sample_db
     = (Raise RequestValidationError, sample_db).
Proof.
  set (p := mkParams None None (Some "popularity"%string) None None).
  set (q := mkParams None None (Some "views"%string) None None).
  destruct (list_prompts_sorted p sample_db) as (Hsorted & _ & _).
  destruct (list_prompts_sorted q sample_db) as (_ & _ & Hbad).
  assert (Hrows : fst (list_prompts p sample_db) = Ok [mental_row; hello_row])
    by (by vm_compute).
  split; [exact Hrows|]. split.
  - apply (Hsorted _ Hrows). reflexivity.
  - apply (Hbad "views"%string eq_refl); discriminate.
Defined.

(** C2, as the code has it: a [limit] above 500 is refused as a
    validation error and nothing is capped; a page that is returned has
    at most [limit] rows, and [limit] is then at most 500; valid
    parameters do get a page; an omitted [limit] is 100; and [limit=0]
    with a valid [sort] and a non-negative [offset] returns the empty
    list. *)
Theorem list_prompts_limit (p : Params) (db : Database) :
  (500 < limit_of p ->
   list_prompts p db = (Raise RequestValidationError, db))
  /\ (forall rows, fst (list_prompts p db) = Ok rows ->
        Z.of_nat (length rows) <= limit_of p <= 500)
  /\ (sort_regex (sort_of p) = true -> 0 <= limit_of p <= 500 ->
      0 <= offset_of p ->
      exists rows, list_prompts p db = (Ok rows, db))
  /\ list_prompts (with_limit None p) db
     = list_prompts (with_limit (Some 100) p) db
  /\ (sort_regex (sort_of p) = true -> 0 <= offset_of p ->
      list_prompts (with_limit (Some 0) p) db = (Ok [], db)).
Proof.
  split; [apply list_prompts_over_limit|].
  split; [|split; [|split]].
  - intros rows Hrows.
    destruct (list_prompts_cases p db) as [H|[H|[Hl H]]];
      rewrite H in Hrows; cbn [fst] in Hrows; try discriminate.
    injection Hrows as <-. split; [|lia]. apply page_length. lia.
  - intros Hsort Hl Ho. eexists. by apply list_prompts_ok.
  - reflexivity.
  - intros Hsort Ho.
    rewrite (list_prompts_ok (with_limit (Some 0) p) db); [done|done|..].
    + cbn. lia.
    + exact Ho.
Qed.

Lemma list_prompts_limit_witness :
  list_prompts (with_limit (Some 501) no_params) sample_db
  = (Raise RequestValidationError, sample_db)
  /\ list_prompts (with_limit (Some 0) no_params) sample_db = (Ok [], sample_db)
  /\ exists rows, list_prompts (with_limit (Some 1) no_params) sample_db
                  = (Ok rows, sample_db).
Proof.
  split; [|split].
  - apply (list_prompts_limit (with_limit (Some 501) no_params) sample_db).
    vm_compute. reflexivity.
  - apply (list_prompts_limit no_params sample_db).
    + vm_compute. reflexivity.
    + vm_compute. discriminate.
  - apply (list_prompts_limit (with_limit (Some 1) no_params) sample_db).
    + vm_compute. reflexivity.
    + vm_compute. split; discriminate.
    + vm_compute. discriminate.
Defined.

(** C2 as written fails: with [limit=1000] the request is refused, with
    [limit=500] it is answered. *)
Lemma list_limit_1000_is_not_limit_500 :
  fst (list_prompts (with_limit (Some 1000) no_params) sample_db)
  = Raise RequestValidationError
  /\ fst (list_prompts (with_limit (Some 500) no_params) sample_db)
     = Ok [mental_row; hello_row]
  /\ list_prompts (with_limit (Some 1000) no_params) sample_db
     <> list_prompts (with_limit (Some 500) no_params) sample_db.
Proof.
  split; [by vm_compute|]. split; [by vm_compute|].
  intros Heq. apply (f_equal fst) in Heq. vm_compute in Heq. discriminate Heq.
Qed.

(** C10: an empty [category] adds no condition, so the answer is that of
    the request without [category]; the same holds for an empty
    [search]. *)
Theorem list_prompts_empty_filter (p : Params) (db : Database) :
  list_prompts (with_category (Some EmptyString) p) db
  = list_prompts (with_category None p) db
  /\ list_prompts (with_search (Some EmptyString) p) db
     = list_prompts (with_search None p) db.
Proof.
  split.
  - unfold list_prompts, get_prompts. reflexivity.
  - unfold list_prompts, get_prompts. reflexivity.
Qed.

(** An empty [category] does not select the rows whose category is
    empty: here both rows come back, and neither has an empty category. *)
Example list_prompts_empty_category_demo :
  fst (list_prompts (with_category (Some EmptyString) no_params) sample_db)
  = Ok [mental_row; hello_row].
Proof. by vm_compute. Qed.

(** ** Patterns and substrings *)

Section patterns.

Implicit Types (p t : list ascii) (c : ascii) (s : string).

Lemma like_percent_unfold p t :
  like ("%"%char :: p) t
  = like p t || match t with [] => false | _ :: t' => like ("%"%char :: p) t' end.
Proof. by destruct t. Qed.

Lemma like_literal_cons c p t :
  like_meta c = false ->
  like (c :: p) t
  = match t with [] => false | x :: t' => Ascii.eqb c x && like p t' end.
Proof.
  unfold like_meta. intros Hc.
  apply orb_false_iff in Hc as [Hc Hb]. apply orb_false_iff in Hc as [Hp Hu].
  cbn [like]. by rewrite Hp, Hu, Hb.
Qed.

Lemma like_percent_only t : like ["%"%char] t = true.
Proof.
  induction t as [|x t IH]; [done|].
  rewrite like_percent_unfold, IH. apply orb_true_r.
Qed.

Lemma like_literal_prefix p t :
  forallb (fun c => negb (like_meta c)) p = true ->
  like (p ++ ["%"%char]) t = starts_with p t.
Proof.
  revert t. induction p as [|c p IH]; intros t Hp.
  - apply like_percent_only.
  - cbn [forallb] in Hp. apply andb_true_iff in Hp as [Hc Hp].
    apply negb_true_iff in Hc.
    rewrite <- app_comm_cons, (like_literal_cons _ _ _ Hc).
    destruct t as [|x t]; [done|]. cbn [starts_with]. by rewrite IH.
Qed.

(** A pattern [%literal%] is a substring test. *)
Lemma like_contains p t :
  forallb (fun c => negb (like_meta c)) p = true ->
  like ("%"%char :: p ++ ["%"%char]) t = occurs_in p t.
Proof.
  intros Hp. induction t as [|x t IH].
  - rewrite like_percent_unfold, (like_literal_prefix _ _ Hp).
    cbn [occurs_in]. done.
  - rewrite like_percent_unfold, (like_literal_prefix _ _ Hp), IH.
    cbn [occurs_in]. done.
Qed.

Lemma starts_with_spec p t :
  starts_with p t = true <-> exists b, t = p ++ b.
Proof.
  revert t. induction p as [|c p IH]; intros t.
  - split; [intros _; by exists t | done].
  - destruct t as [|x t]; cbn [starts_with].
    + split; [done | intros [b Hb]; discriminate Hb].
    + rewrite andb_true_iff, Ascii.eqb_eq, IH. split.
      * intros [-> [b ->]]. by exists b.
      * intros [b Hb]. injection Hb as -> ->. split; [done | by exists b].
Qed.

(** [occurs_in] is the substring relation. *)
Lemma occurs_in_spec p t :
  occurs_in p t = true <-> exists a b, t = a ++ p ++ b.
Proof.
  induction t as [|x t IH]; cbn [occurs_in].
  - rewrite orb_false_r, starts_with_spec. split.
    + intros [b Hb]. by exists [], b.
    + intros (a & b & Hab). destruct a; [by exists b|discriminate Hab].
  - rewrite orb_true_iff, starts_with_spec, IH. split.
    + intros [[b Hb] | (a & b & ->)]; [by exists [], b | by exists (x :: a), b].
    + intros (a & b & Hab). destruct a as [|y a].
      * left. by exists b.
      * right. injection Hab as -> ->. by exists a, b.
Qed.

Lemma lower_char_idem c : lower_char (lower_char c) = lower_char c.
Proof. by destruct c as [[] [] [] [] [] [] [] []]. Qed.

Lemma lower_char_meta c : like_meta (lower_char c) = like_meta c.
Proof. by destruct c as [[] [] [] [] [] [] [] []]. Qed.

Lemma lower_chars_idem t : lower_chars (lower_chars t) = lower_chars t.
Proof.
  unfold lower_chars. rewrite map_map. apply map_ext, lower_char_idem.
Qed.

Lemma lower_chars_meta_free t :
  forallb (fun c => negb (like_meta c)) (lower_chars t)
  = forallb (fun c => negb (like_meta c)) t.
Proof.
  induction t as [|c t IH]; [done|].
  cbn [lower_chars map forallb]. fold (lower_chars t).
  by rewrite lower_char_meta, IH.
Qed.

Lemma list_ascii_of_string_app s1 s2 :
  list_ascii_of_string (s1 ++ s2)
  = list_ascii_of_string s1 ++ list_ascii_of_string s2.
Proof.
  induction s1 as [|c s1 IH]; [done|].
  change (String c s1 ++ s2)%string with (String c (s1 ++ s2)).
  cbn [list_ascii_of_string]. rewrite IH. done.
Qed.

(** The characters of the pattern [get_prompts] builds, as [ilike]
    sees them. *)
Lemma search_term_chars s :
  lower_chars (list_ascii_of_string ("%" ++ lower s ++ "%"))
  = "%"%char :: lower_chars (list_ascii_of_string s) ++ ["%"%char].
Proof.
  rewrite !list_ascii_of_string_app. unfold lower.
  rewrite list_ascii_of_string_of_list_ascii.
  unfold lower_chars. rewrite !map_app, map_map. cbn [list_ascii_of_string map].
  rewrite (map_ext _ _ lower_char_idem). done.
Qed.

Lemma dangling_escape_percent t :
  dangling_escape (t ++ ["%"%char]) = false
  /\ forall c, dangling_escape (c :: t ++ ["%"%char]) = false.
Proof.
  induction t as [|x t [IH1 IH2]].
  - split; [done|]. intros c. cbn. by destruct (Ascii.eqb c _).
  - split; [apply IH2|]. intros c. cbn [dangling_escape app].
    destruct (Ascii.eqb c _); [exact IH1 | apply IH2].
Qed.

(** The pattern [get_prompts] builds never ends in a lone backslash,
    the one case in which the engine would refuse it. *)
Lemma search_term_well_formed s :
  dangling_escape (lower_chars (list_ascii_of_string ("%" ++ lower s ++ "%")))
  = false.
Proof.
  rewrite search_term_chars.
  apply (proj2 (dangling_escape_percent _) "%"%char).
Qed.

Lemma ilike_search_term term text :
  meta_free term = true ->
  ilike text ("%" ++ lower term ++ "%") = contains_ci term text.
Proof.
  intros Hfree. unfold ilike, contains_ci. rewrite search_term_chars.
  apply like_contains. by rewrite lower_chars_meta_free.
Qed.

End patterns.

(** ** Searching *)

Section searching.

Implicit Types (db : Database) (r : Row) (p : Params).

Lemma search_clause_spec (term : string) r :
  meta_free term = true ->
  search_clause (Some term) r = matches_search term r.
Proof.
  intros Hfree. unfold search_clause, matches_search.
  destruct (truthy term) eqn:Htruthy.
  - cbv zeta. by rewrite !(ilike_search_term _ _ Hfree).
  - unfold truthy in Htruthy. apply negb_false_iff, String.eqb_eq in Htruthy.
    subst term. unfold contains_ci. cbn [list_ascii_of_string lower_chars map].
    by destruct (lower_chars _).
Qed.

Lemma category_clause_spec (category : option string) r :
  category <> Some EmptyString ->
  category_clause category r = category_is category r.
Proof.
  intros Hne. destruct category as [c|]; [|done].
  unfold category_clause, category_is, truthy.
  destruct (String.eqb c EmptyString) eqn:Hc; [|done].
  apply String.eqb_eq in Hc. by subst c.
Qed.

Lemma elem_of_merge_sort (R : relation Row) `{!RelDecision R} (rows : list Row) r :
  r ∈ merge_sort R rows <-> r ∈ rows.
Proof. by rewrite merge_sort_Permutation. Qed.

End searching.

(** C3, as the code has it: for a search term without the pattern
    characters [%], [_] and backslash, and a category that is absent or
    not empty, the answer is the page cut out of the rows that have the
    category (when one is given) and in which the term occurs, case
    ignored, in the title, the prompt text or the text of the tags.
    Every row of the answer is such a row, and when the page covers the
    table every such row is in the answer. *)
Theorem list_prompts_search (p : Params) (db : Database) (term : string) :
  param_search p = Some term ->
  meta_free term = true ->
  param_category p <> Some EmptyString ->
  sort_regex (sort_of p) = true ->
  0 <= limit_of p <= 500 ->
  0 <= offset_of p ->
  exists rows,
    list_prompts p db = (Ok rows, db)
    /\ rows
       = page (limit_of p) (offset_of p)
           (merge_sort (desc (sort_column (sort_of p)))
              (filter (fun r => category_is (param_category p) r
                                && matches_search term r)
                      (prompts db)))
    /\ (forall r, r ∈ rows ->
          r ∈ prompts db
          /\ category_is (param_category p) r = true
          /\ matches_search term r = true)
    /\ (offset_of p = 0 -> Z.of_nat (length (prompts db)) <= limit_of p ->
        forall r, r ∈ prompts db ->
                  category_is (param_category p) r = true ->
                  matches_search term r = true ->
                  r ∈ rows).
Proof.
  intros Hsearch Hfree Hcat Hsort Hl Ho.
  set (wanted := fun r => category_is (param_category p) r
                          && matches_search term r).
  assert (Hsel : selection (param_category p) (param_search p) (sort_of p) db
                 = merge_sort (desc (sort_column (sort_of p)))
                     (filter (fun r => wanted r) (prompts db))).
  { unfold selection. f_equal. apply list_filter_iff. intros r.
    unfold wanted. rewrite Hsearch, (search_clause_spec _ _ Hfree).
    by rewrite (category_clause_spec _ _ Hcat). }
  eexists. split; [by apply list_prompts_ok|]. rewrite Hsel.
  split; [done|]. split.
  - intros r Hr. apply page_elem, elem_of_merge_sort in Hr.
    apply list_elem_of_filter in Hr as [Hw Hr]. unfold wanted in Hw.
    apply Is_true_true, andb_true_iff in Hw as [Hc Hm]. done.
  - intros Ho0 Hlen r Hr Hc Hm. rewrite Ho0, page_all.
    + apply elem_of_merge_sort, list_elem_of_filter. split; [|done].
      unfold wanted. by rewrite Hc, Hm.
    + etrans; [|exact Hlen]. apply inj_le.
      rewrite (Permutation_length (merge_sort_Permutation _ _)).
      apply length_filter.
Qed.

Lemma list_prompts_search_witness :
  meta_free "MENTAL" = true
  /\ exists rows,
       list_prompts (with_search (Some "MENTAL"%string) no_params) sample_db
       = (Ok rows, sample_db)
       /\ (hello_row ∈ rows -> matches_search "MENTAL" hello_row = true)
       /\ mental_row ∈ rows.
Proof.
  split; [reflexivity|].
  destruct (list_prompts_search
              (with_search (Some "MENTAL"%string) no_params) sample_db "MENTAL")
    as (rows & Hrows & _ & Hsound & Hcomplete).
  - reflexivity.
  - reflexivity.
  - discriminate.
  - reflexivity.
  - vm_compute. split; discriminate.
  - vm_compute. discriminate.
  - exists rows. split; [exact Hrows|]. split.
    + intros Hin. apply (Hsound hello_row Hin).
    + apply Hcomplete.
      * reflexivity.
      * vm_compute. discriminate.
      * right; left.
      * reflexivity.
      * reflexivity.
Defined.

(** C3 as written fails twice.  The term [_] is a pattern that matches
    any character: it finds [hello_row], in which no underscore occurs.
    And with the category given as the empty string and the term
    [hello], [hello_row] is returned although its category is [X]. *)
Lemma list_search_is_not_substring_search :
  (fst (list_prompts (with_search (Some "_"%string) no_params) sample_db)
   = Ok [mental_row; hello_row]
   /\ matches_search "_" hello_row = false)
  /\ (fst (list_prompts
             (with_category (Some EmptyString)
                (with_search (Some "hello"%string) no_params))
             sample_db)
      = Ok [hello_row]
      /\ category_is (Some EmptyString) hello_row = false).
Proof. repeat split; by vm_compute. Qed.

(** ** Creating a prompt *)

Section creating.

Implicit Types (db : Database) (r : Row) (prompt : PromptCreate).

Lemma execute_insert_values prompt now db :
  execute_insert
    (values (title prompt) (prompt_text prompt) (category prompt)
            (tags prompt) (source prompt) 0 now) db
  = (Ok (prompts_id_seq db),
     inserted (new_row prompt (prompts_id_seq db) now) db).
Proof. reflexivity. Qed.

(** Whatever the fetch after the insert finds, the insert has happened. *)
Lemma create_prompt_db prompt now db :
  snd (create_prompt prompt now db)
  = inserted (new_row prompt (prompts_id_seq db) now) db.
Proof.
  unfold create_prompt, bind.
  rewrite execute_insert_values, fetch_one_where.
  by destruct (head _).
Qed.

Lemma create_prompt_consistent prompt now db :
  consistent db ->
  create_prompt prompt now db
  = (Ok (new_row prompt (prompts_id_seq db) now),
     inserted (new_row prompt (prompts_id_seq db) now) db).
Proof.
  intros [_ Hlt]. unfold create_prompt, bind.
  rewrite execute_insert_values, fetch_one_where.
  cbn [inserted prompts]. rewrite filter_app, filter_id_absent.
  - rewrite filter_cons, decide_True; [done|].
    cbn [new_row c_id]. apply Is_true_true, Z.eqb_refl.
  - intros r Hr. rewrite Forall_forall in Hlt. specialize (Hlt r Hr). lia.
Qed.

Lemma inserted_consistent r db :
  consistent db -> c_id r = prompts_id_seq db -> consistent (inserted r db).
Proof.
  intros [Hnd Hlt] Hid. rewrite Forall_forall in Hlt. split; cbn [inserted prompts prompts_id_seq].
  - rewrite map_app. apply NoDup_app. split; [done|]. split.
    + intros x Hx Hx'. cbn in Hx'. apply list_elem_of_singleton in Hx'.
      apply list_elem_of_fmap in Hx as (y & -> & Hy).
      specialize (Hlt y Hy). lia.
    + cbn. apply NoDup_singleton.
  - apply Forall_app. split.
    + apply Forall_forall. intros x Hx. specialize (Hlt x Hx). lia.
    + apply Forall_singleton. lia.
Qed.


(** A body with the three required fields is stored as it is. *)
Lemma post_prompts_accepted (body : Body) (t p c : string) (now : Z) db :
  consistent db ->
  body_title body = Some t -> body_prompt_text body = Some p ->
  body_category body = Some c ->
  post_prompts body now db
  = (Ok (mkRow (prompts_id_seq db) t p c (default [] (body_tags body))
               (body_source body) 0 now),
     inserted (mkRow (prompts_id_seq db) t p c (default [] (body_tags body))
                     (body_source body) 0 now) db).
Proof.
  intros Hc Ht Hp Hcat. unfold post_prompts, parse_PromptCreate.
  rewrite Ht, Hp, Hcat. by rewrite create_prompt_consistent.
Qed.

End creating.



(** C8, as the code has it: a create request without [title], without
    [prompt_text] or without [category] is a validation error and the
    database is left as it was.  A request that has the three passes
    validation whatever they contain, the empty string included, and
    when [title], [category] and [source] are within the widths of their
    columns the row is stored and returned. *)
Theorem post_prompts_required_fields (body : Body) (now : Z) (db : Database) :
  (body_title body = None \/ body_prompt_text body = None
   \/ body_category body = None ->
   post_prompts body now db = (Raise RequestValidationError, db))
  /\ (forall t p c,
        body_title body = Some t -> body_prompt_text body = Some p ->
        body_category body = Some c ->
        parse_PromptCreate body
        = Ok (mkPromptCreate t p c (default [] (body_tags body))
                             (body_source body))
        /\ (fits_columns t c (body_source body) = true ->
            consistent db ->
            exists row,
              post_prompts body now db = (Ok row, inserted row db)
              /\ c_title row = t /\ c_prompt_text row = p
              /\ c_category row = c)).
Proof.
  split.
  - intros Hmissing. unfold post_prompts, parse_PromptCreate.
    destruct Hmissing as [-> | [Hp | Hc]]; [done| |].
    + rewrite Hp. by destruct (body_title body).
    + rewrite Hc. by destruct (body_title body), (body_prompt_text body).
  - intros t p c Ht Hp Hcat. split.
    + unfold parse_PromptCreate. by rewrite Ht, Hp, Hcat.
    + intros _ Hc. eexists.
      split; [by apply post_prompts_accepted|]. done.
Qed.

Lemma post_prompts_required_fields_witness :
  post_prompts untitled_body 30 sample_db
  = (Raise RequestValidationError, sample_db)
  /\ fits_columns EmptyString "X" None = true
  /\ consistent sample_db
  /\ exists row,
       post_prompts blank_body 30 sample_db = (Ok row, inserted row sample_db)
       /\ c_title row = EmptyString /\ c_prompt_text row = EmptyString.
Proof.
  assert (Hc : consistent sample_db) by by_evaluation.
  split; [|split; [reflexivity|split; [exact Hc|]]].
  - apply (proj1 (post_prompts_required_fields untitled_body 30 sample_db)).
    left. reflexivity.
  - destruct (proj2 (post_prompts_required_fields blank_body 30 sample_db)
                EmptyString EmptyString "X"%string eq_refl eq_refl eq_refl)
      as [_ Hstored].
    destruct (Hstored eq_refl Hc) as (row & Hpost & Ht & Hp & _).
    by exists row.
Defined.

(** C8 as written fails: an empty [title] and an empty [prompt_text]
    are accepted and the row is stored. *)
Lemma post_prompts_accepts_empty_strings :
  post_prompts blank_body 30 empty_database
  = (Ok (mkRow 1 EmptyString EmptyString "X" [] None 0 30),
     {| prompts := [mkRow 1 EmptyString EmptyString "X" [] None 0 30];
        prompts_id_seq := 2 |}).
Proof. by vm_compute. Qed.

(** ** Seeding *)

Section seeding.

Variable texts : nat -> string.
Variable clock : nat -> Z.

Implicit Types (db : Database) (r : Row) (items : list PromptCreate).

Lemma seed_loop items : forall (k : nat) db,
  for_each k items (seed_round clock) db
  = (Ok tt, extended (seeded_rows clock k (prompts_id_seq db) items) db).
Proof.
  induction items as [|e items IH]; intros k db.
  - cbn. unfold ret, extended. cbn. rewrite app_nil_r, Z.add_0_r.
    by destruct db.
  - cbn [for_each]. unfold bind at 1. unfold seed_round at 1. unfold bind at 1.
    rewrite execute_insert_values. unfold ret at 1. rewrite IH.
    f_equal. unfold extended, inserted.
    cbn [prompts prompts_id_seq seeded_rows length].
    rewrite <- app_assoc. cbn [app]. f_equal. lia.
Qed.

Lemma seeded_rows_length items (k : nat) (id : Z) :
  length (seeded_rows clock k id items) = length items.
Proof.
  revert k id. induction items as [|e items IH]; intros k id; [done|].
  cbn. by rewrite IH.
Qed.

Lemma seeded_rows_lookup items : forall (k : nat) (id : Z) (i : nat) r,
  seeded_rows clock k id items !! i = Some r ->
  exists e, items !! i = Some e
            /\ r = new_row e (id + Z.of_nat i) (clock (k + i)%nat).
Proof.
  induction items as [|e items IH]; intros k id i r Hr; [done|].
  destruct i as [|i]; cbn in Hr.
  - injection Hr as <-. exists e. split; [done|].
    by rewrite Z.add_0_r, Nat.add_0_r.
  - apply IH in Hr as (e' & He' & ->). exists e'. split; [done|].
    f_equal; [lia | f_equal; lia].
Qed.

Lemma example_prompts_length : length (example_prompts texts) = 32%nat.
Proof. reflexivity. Qed.

Lemma seed_database_nonempty db :
  prompts db <> [] -> seed_database texts clock db = (Ok tt, db).
Proof.
  intros Hne. unfold seed_database, bind, fetch_val_count.
  destruct (prompts db) as [|r rows] eqn:Hrows; [done|].
  by cbn.
Qed.

Lemma seed_database_empty db :
  prompts db = [] ->
  seed_database texts clock db
  = (Ok tt,
     extended (seeded_rows clock 0 (prompts_id_seq db) (example_prompts texts))
              db).
Proof.
  intros Hempty. unfold seed_database, bind at 1, fetch_val_count.
  rewrite Hempty. cbn [length Z.of_nat Z.ltb Z.compare].
  apply (seed_loop (example_prompts texts) 0%nat db).
Qed.

End seeding.

(** C5: on a database with at least one row the seeder changes nothing;
    on an empty one it inserts the catalog, thirty-two rows in catalog
    order, each with [views] 0, the clock reading of its round and the
    next key; so the seeder changes the database exactly when it is
    empty, and a second run changes nothing. *)
Theorem seed_database_once
    (texts : nat -> string) (clock clock' : nat -> Z) (db : Database) :
  (prompts db <> [] -> seed_database texts clock db = (Ok tt, db))
  /\ (prompts db = [] ->
      exists rows,
        seed_database texts clock db = (Ok tt, extended rows db)
        /\ length rows = length (example_prompts texts)
        /\ length rows = 32%nat
        /\ forall (k : nat) r, rows !! k = Some r ->
             c_views r = 0
             /\ c_created_at r = clock k
             /\ c_id r = prompts_id_seq db + Z.of_nat k
             /\ exists e, example_prompts texts !! k = Some e
                          /\ r = new_row e (c_id r) (clock k))
  /\ (snd (seed_database texts clock db) <> db <-> prompts db = [])
  /\ seed_database texts clock' (snd (seed_database texts clock db))
     = (Ok tt, snd (seed_database texts clock db)).
Proof.
  assert (Hfull : prompts db = [] ->
                  prompts (snd (seed_database texts clock db)) <> []).
  { intros Hempty. rewrite (seed_database_empty _ _ _ Hempty).
    cbn [snd extended prompts]. rewrite Hempty. discriminate. }
  split; [apply seed_database_nonempty|]. split; [|split].
  - intros Hempty. eexists. split; [by apply seed_database_empty|].
    rewrite seeded_rows_length. split; [done|]. split; [done|].
    intros k r Hr. apply seeded_rows_lookup in Hr as (e & He & ->).
    cbn [new_row c_views c_created_at c_id Nat.add].
    split; [done|]. split; [done|]. split; [done|]. by exists e.
  - split.
    + intros Hchanged. destruct (prompts db) as [|r rows] eqn:Hrows; [done|].
      exfalso. apply Hchanged.
      rewrite seed_database_nonempty; [done|]. by rewrite Hrows.
    + intros Hempty Heq. apply (Hfull Hempty). by rewrite Heq.
  - apply seed_database_nonempty.
    destruct (prompts db) as [|r rows] eqn:Hrows.
    + by apply Hfull.
    + rewrite seed_database_nonempty; [|by rewrite Hrows].
      cbn [snd]. by rewrite Hrows.
Qed.

Lemma seed_database_once_witness :
  seed_database sample_texts sample_clock sample_db = (Ok tt, sample_db)
  /\ length (prompts (snd (seed_database sample_texts sample_clock
                             empty_database))) = 32%nat
  /\ snd (seed_database sample_texts sample_clock empty_database)
     <> empty_database.
Proof.
  split; [|split].
  - apply (proj1 (seed_database_once sample_texts sample_clock sample_clock
                      sample_db)).
    discriminate.
  - destruct (seed_database_once sample_texts sample_clock sample_clock
                empty_database) as (_ & Hempty & _).
    destruct (Hempty eq_refl) as (rows & Hseed & _ & Hlen & _).
    rewrite Hseed. cbn [snd extended prompts empty_database app]. exact Hlen.
  - destruct (seed_database_once sample_texts sample_clock sample_clock
                empty_database) as (_ & _ & Hiff & _).
    apply Hiff. reflexivity.
Defined.

(** ** What the service does to stored rows *)

Section effects.

Variable texts : nat -> string.

Implicit Types (db : Database) (r : Row) (req : Request).

Lemma fmap_handler_db {A B} (f : A -> B) (m : Handler A) db :
  snd (fmap_handler f m db) = snd (m db).
Proof. unfold fmap_handler, bind, ret. by destruct (m db) as [[a|e] db']. Qed.

Lemma post_prompts_db (body : Body) (now : Z) db :
  snd (post_prompts body now db) = db
  \/ exists row, snd (post_prompts body now db) = inserted row db.
Proof.
  unfold post_prompts. destruct (parse_PromptCreate body) as [prompt|e].
  - right. eexists. apply create_prompt_db.
  - by left.
Qed.

Lemma list_prompts_db (p : Params) db : snd (list_prompts p db) = db.
Proof.
  by destruct (list_prompts_cases p db) as [-> | [-> | [_ ->]]].
Qed.

Lemma get_prompt_db (prompt_id : Z) db :
  snd (get_prompt prompt_id db) = db
  \/ snd (get_prompt prompt_id db) = count_view prompt_id db.
Proof.
  rewrite get_prompt_unfold. destruct (head _); [by right | by left].
Qed.

Lemma seed_database_db (clock : nat -> Z) db :
  snd (seed_database texts clock db) = db
  \/ exists rows, snd (seed_database texts clock db) = extended rows db.
Proof.
  destruct (prompts db) as [|r rows] eqn:Hrows.
  - right. eexists. by rewrite seed_database_empty.
  - left. rewrite seed_database_nonempty; [done|]. by rewrite Hrows.
Qed.

(** Every request either appends rows, possibly none, or is a fetch by
    key that counts a view. *)
Lemma serve_effect req db :
  (exists rows, prompts (snd (serve texts req db)) = prompts db ++ rows)
  \/ (exists prompt_id, req = GET_prompt prompt_id
        /\ snd (serve texts req db) = count_view prompt_id db).
Proof.
  destruct req as [body now | p | prompt_id | | | clock];
    cbn [serve]; rewrite fmap_handler_db.
  - left. destruct (post_prompts_db body now db) as [-> | [row ->]].
    + exists []. by rewrite app_nil_r.
    + by exists [row].
  - left. exists []. by rewrite list_prompts_db, app_nil_r.
  - destruct (get_prompt_db prompt_id db) as [H | H].
    + left. exists []. by rewrite H, app_nil_r.
    + right. by exists prompt_id.
  - left. exists []. by rewrite app_nil_r.
  - left. exists []. by rewrite app_nil_r.
  - left. destruct (seed_database_db clock db) as [-> | [rows ->]].
    + exists []. by rewrite app_nil_r.
    + by exists rows.
Qed.

Lemma with_views_same r : with_views (c_views r) r = r.
Proof. by destruct r. Qed.

Lemma serve_step req db (i : nat) r :
  prompts db !! i = Some r ->
  exists r',
    prompts (snd (serve texts req db)) !! i = Some r'
    /\ r' = with_views (c_views r') r
    /\ c_views r <= c_views r'
    /\ (r' <> r -> req = GET_prompt (c_id r) /\ c_views r' = c_views r + 1).
Proof.
  intros Hr. destruct (serve_effect req db) as [[rows Hrows] | (pid & -> & Hdb)].
  - exists r. rewrite Hrows, lookup_app_l by (by eapply lookup_lt_Some).
    split; [done|]. split; [by rewrite with_views_same|]. split; [lia|done].
  - rewrite Hdb. cbn [count_view prompts].
    exists (if c_id r =? pid then views_plus_1 r else r).
    split; [by rewrite list_lookup_fmap, Hr|].
    destruct (c_id r =? pid) eqn:Hid.
    + apply Z.eqb_eq in Hid as <-. cbn [views_plus_1 c_views].
      split; [done|]. split; [lia|done].
    + split; [by rewrite with_views_same|]. split; [lia|done].
Qed.

End effects.

(** ** The keys stay distinct *)

Section keys.

Variable texts : nat -> string.

Implicit Types (db : Database) (r : Row) (req : Request).

Lemma empty_database_consistent : consistent empty_database.
Proof. split; [apply NoDup_nil_2 | apply Forall_nil_2]. Qed.

Lemma extended_cons r (rows : list Row) db :
  extended (r :: rows) db = extended rows (inserted r db).
Proof.
  unfold extended, inserted. cbn [prompts prompts_id_seq length].
  rewrite <- app_assoc. f_equal. lia.
Qed.

Lemma seeded_consistent (clock : nat -> Z) (items : list PromptCreate) :
  forall (k : nat) db,
    consistent db ->
    consistent (extended (seeded_rows clock k (prompts_id_seq db) items) db).
Proof.
  induction items as [|e items IH]; intros k db Hc.
  - cbn [seeded_rows]. unfold extended. cbn [length Z.of_nat].
    rewrite app_nil_r, Z.add_0_r. by destruct db.
  - cbn [seeded_rows]. rewrite extended_cons.
    apply (IH (S k) (inserted (new_row e (prompts_id_seq db) (clock k)) db)).
    by apply inserted_consistent.
Qed.

(** No request breaks the discipline of the primary key. *)
Lemma serve_consistent req db :
  consistent db -> consistent (snd (serve texts req db)).
Proof.
  intros Hc. destruct req as [body now | p | prompt_id | | | clock];
    cbn [serve]; rewrite fmap_handler_db.
  - unfold post_prompts. destruct (parse_PromptCreate body) as [prompt|e];
      [|done]. rewrite create_prompt_db. by apply inserted_consistent.
  - by rewrite list_prompts_db.
  - destruct (get_prompt_db prompt_id db) as [-> | ->];
      [done | by apply count_view_consistent].
  - done.
  - done.
  - destruct (prompts db) as [|r rows] eqn:Hrows.
    + rewrite seed_database_empty by done. by apply seeded_consistent.
    + rewrite seed_database_nonempty; [done|]. by rewrite Hrows.
Qed.

(** Every database the service can reach from an empty one has distinct
    keys below the sequence. *)
Lemma serve_all_consistent (reqs : list Request) db :
  consistent db -> consistent (serve_all texts reqs db).
Proof.
  revert db. induction reqs as [|req reqs IH]; intros db Hc; [done|].
  apply IH. by apply serve_consistent.
Qed.

End keys.

(** C9: whatever request is served, a stored row stays where it is with
    every field but [views] as it was and [views] no smaller; it changes
    only when the request is the fetch of that row's key, and then
    [views] goes up by one.  The same holds, for all fields but [views]
    and for [views] not decreasing, after any sequence of requests. *)
Theorem serve_keeps_rows
    (texts : nat -> string) (req : Request) (reqs : list Request)
    (db : Database) (i : nat) (r : Row) :
  prompts db !! i = Some r ->
  (exists r',
     prompts (snd (serve texts req db)) !! i = Some r'
     /\ r' = with_views (c_views r') r
     /\ c_views r <= c_views r'
     /\ (r' <> r -> req = GET_prompt (c_id r) /\ c_views r' = c_views r + 1))
  /\ (exists r',
        prompts (serve_all texts reqs db) !! i = Some r'
        /\ r' = with_views (c_views r') r
        /\ c_views r <= c_views r').
Proof.
  intros Hr. split; [by apply serve_step|].
  revert db r Hr. induction reqs as [|q reqs IH]; intros db r Hr.
  - exists r. split; [done|]. split; [by rewrite with_views_same | lia].
  - destruct (serve_step texts q db i r Hr) as (r1 & Hr1 & Heq1 & Hle1 & _).
    destruct (IH _ _ Hr1) as (r' & Hr' & Heq' & Hle').
    exists r'. split; [exact Hr'|]. split; [|lia].
    rewrite Heq', Heq1. by destruct r.
Qed.

Lemma serve_keeps_rows_witness :
  prompts sample_db !! 1%nat = Some mental_row
  /\ prompts (snd (serve sample_texts (GET_prompt 2) sample_db)) !! 1%nat
     = Some (with_views 4 mental_row)
  /\ prompts (snd (serve sample_texts (POST_prompts hello_body 30) sample_db))
       !! 1%nat
     = Some mental_row.
Proof.
  assert (Hr : prompts sample_db !! 1%nat = Some mental_row) by reflexivity.
  split; [exact Hr|]. split.
  - destruct (serve_keeps_rows sample_texts (GET_prompt 2) [] sample_db
                1%nat mental_row Hr) as [(r' & Hr' & _) _].
    rewrite Hr'. vm_compute in Hr'. by injection Hr' as <-.
  - destruct (serve_keeps_rows sample_texts (POST_prompts hello_body 30) []
                sample_db 1%nat mental_row Hr) as [(r' & Hr' & _) _].
    rewrite Hr'. vm_compute in Hr'. by injection Hr' as <-.
Defined.

(** * Further properties of the endpoints *)

(** ** Categories and statistics *)

Section statistics.

Implicit Types (db : Database) (c : string) (ks cats : list string).

Lemma get_stats_unfold db :
  get_stats db
  = (Ok {| total_prompts := Z.of_nat (length (prompts db));
           categories :=
             list_to_map
               (map (fun c => (c, category_count c db))
                    (remove_dups (category_column db))) |},
     db).
Proof. reflexivity. Qed.

Lemma count_keys (F : string -> Z) ks :
  (map (fun c => (c, F c)) ks).*1 = ks.
Proof.
  induction ks as [|k ks IH]; [done|]. cbn. f_equal. exact IH.
Qed.

Lemma sum_over_pairs (F : string -> Z) ks :
  foldr (fun kv acc => kv.2 + acc) 0 (map (fun c => (c, F c)) ks)
  = sum_over ks F.
Proof.
  unfold sum_over. induction ks as [|k ks IH]; [done|]. cbn. by rewrite IH.
Qed.

Lemma sum_over_ext (F G : string -> Z) ks :
  (forall c, F c = G c) -> sum_over ks F = sum_over ks G.
Proof.
  intros Hext. unfold sum_over.
  induction ks as [|k ks IH]; [done|]. cbn. by rewrite Hext, IH.
Qed.

Lemma sum_over_plus (F G : string -> Z) ks :
  sum_over ks (fun c => F c + G c) = sum_over ks F + sum_over ks G.
Proof.
  unfold sum_over. induction ks as [|k ks IH]; [done|]. cbn. rewrite IH. lia.
Qed.

Lemma sum_over_indicator_absent (x : string) ks :
  x ∉ ks -> sum_over ks (fun c => if decide (x = c) then 1 else 0) = 0.
Proof.
  unfold sum_over. induction ks as [|k ks IH]; intros Hx; [done|].
  apply not_elem_of_cons in Hx as [Hne Hx]. cbn.
  rewrite decide_False by done. by rewrite IH.
Qed.

Lemma sum_over_indicator (x : string) ks :
  NoDup ks -> x ∈ ks ->
  sum_over ks (fun c => if decide (x = c) then 1 else 0) = 1.
Proof.
  induction ks as [|k ks IH]; intros Hnd Hx; [by apply elem_of_nil in Hx|].
  apply NoDup_cons in Hnd as [Hk Hnd].
  change (sum_over (k :: ks) ?F) with (F k + sum_over ks F). cbv beta.
  apply elem_of_cons in Hx as [->|Hx].
  - rewrite decide_True by done. by rewrite sum_over_indicator_absent.
  - rewrite decide_False by (intros ->; done). by rewrite IH.
Qed.

(** Distinct names that cover a list count each of its items once. *)
Lemma sum_over_counts ks cats :
  NoDup ks -> (forall x, x ∈ cats -> x ∈ ks) ->
  sum_over ks (fun c => Z.of_nat (length (filter (fun x => x = c) cats)))
  = Z.of_nat (length cats).
Proof.
  intros Hnd. induction cats as [|x cats IH]; intros Hcover.
  - clear Hnd Hcover. unfold sum_over.
    induction ks as [|k ks IHk]; [done|]. cbn in *. by rewrite IHk.
  - rewrite (sum_over_ext _
      (fun c => (if decide (x = c) then 1 else 0)
                + Z.of_nat (length (filter (fun y => y = c) cats)))).
    + rewrite sum_over_plus, sum_over_indicator, IH; cbn [length]; try lia.
      * intros y Hy. apply Hcover. by right.
      * done.
      * apply Hcover. by left.
    + intros c. rewrite filter_cons. destruct (decide (x = c)); cbn [length]; lia.
Qed.

Lemma sum_values_list_to_map (l : list (string * Z)) :
  NoDup (l.*1) ->
  sum_values (list_to_map l) = foldr (fun kv acc => kv.2 + acc) 0 l.
Proof.
  intros Hnd. unfold sum_values. rewrite map_fold_foldr.
  trans (foldr (uncurry (fun (_ : string) (n acc : Z) => n + acc)) 0 l).
  - apply (foldr_permutation_proper (=)
             (uncurry (fun (_ : string) (n acc : Z) => n + acc)) 0).
    + intros [k1 n1] [k2 n2] acc. cbn. lia.
    + by apply map_to_list_to_map.
  - clear Hnd. induction l as [|[k n] l IH]; [done|]. cbn. by rewrite IH.
Qed.

Lemma category_count_positive c db :
  c ∈ category_column db -> 0 < category_count c db.
Proof.
  intros Hc. unfold category_count.
  assert (Hin : c ∈ filter (fun x => x = c) (category_column db))
    by (by apply list_elem_of_filter).
  destruct (filter _ _); [by apply elem_of_nil in Hin | cbn; lia].
Qed.

Lemma stats_lookup c db :
  (list_to_map (map (fun c => (c, category_count c db))
                    (remove_dups (category_column db))) : gmap string Z) !! c
  = if decide (c ∈ category_column db) then Some (category_count c db)
    else None.
Proof.
  destruct (decide _) as [Hc|Hc].
  - apply elem_of_list_to_map.
    + rewrite count_keys. apply NoDup_remove_dups.
    + apply (list_elem_of_fmap_2 (fun c => (c, category_count c db))).
      by apply elem_of_remove_dups.
  - apply not_elem_of_list_to_map_1. rewrite count_keys.
    by rewrite elem_of_remove_dups.
Qed.

End statistics.

(** X1: [get_stats] never fails and leaves the database alone;
    [total_prompts] is the number of rows and equals the sum of the
    counts in [categories]. *)
Theorem get_stats_total_is_sum (db : Database) :
  exists stats,
    get_stats db = (Ok stats, db)
    /\ total_prompts stats = Z.of_nat (length (prompts db))
    /\ sum_values (categories stats) = total_prompts stats.
Proof.
  eexists. split; [apply get_stats_unfold|]. split; [done|].
  cbn [categories total_prompts].
  rewrite sum_values_list_to_map
    by (rewrite count_keys; apply NoDup_remove_dups).
  rewrite sum_over_pairs. unfold category_count.
  rewrite sum_over_counts.
  - unfold category_column. by rewrite length_map.
  - apply NoDup_remove_dups.
  - intros x Hx. by apply elem_of_remove_dups.
Qed.

(** X2: in the answer of [get_stats] a category that some row has is
    mapped to the number of rows that have it, which is at least one,
    and a category no row has is not a key. *)
Theorem get_stats_counts (db : Database) (c : string) :
  exists stats,
    get_stats db = (Ok stats, db)
    /\ ((exists r, r ∈ prompts db /\ c_category r = c) ->
        categories stats !! c = Some (category_count c db)
        /\ 1 <= category_count c db)
    /\ ((forall r, r ∈ prompts db -> c_category r <> c) ->
        categories stats !! c = None).
Proof.
  eexists. split; [apply get_stats_unfold|]. cbn [categories].
  rewrite stats_lookup. split.
  - intros (r & Hr & Hc).
    assert (Hin : c ∈ category_column db).
    { unfold category_column. apply list_elem_of_fmap. by exists r. }
    rewrite decide_True by done. split; [done|].
    pose proof (category_count_positive c db Hin). lia.
  - intros Hno. rewrite decide_False; [done|].
    unfold category_column. intros Hin.
    apply list_elem_of_fmap in Hin as (r & -> & Hr). by apply (Hno r).
Qed.

Lemma get_stats_counts_witness :
  exists stats,
    get_stats sample_db = (Ok stats, sample_db)
    /\ categories stats !! "Y"%string = Some 1
    /\ categories stats !! "Z"%string = None.
Proof.
  destruct (get_stats_counts sample_db "Y") as (stats & Hstats & Hsome & _).
  destruct (get_stats_counts sample_db "Z") as (stats' & Hstats' & _ & Hnone).
  rewrite Hstats in Hstats'. injection Hstats' as <-.
  exists stats. split; [exact Hstats|]. split.
  - apply Hsome. exists mental_row. split; [right; left | reflexivity].
  - apply Hnone. intros r Hr. cbn in Hr.
    repeat (apply elem_of_cons in Hr as [->|Hr]; [discriminate|]).
    by apply elem_of_nil in Hr.
Defined.

(** X3: [get_categories] never fails and leaves the database alone; it
    returns every category some row has exactly once and nothing else,
    so its names are the keys of the [categories] of [get_stats]. *)
Theorem get_categories_distinct (db : Database) :
  exists names stats,
    get_categories db = (Ok names, db)
    /\ get_stats db = (Ok stats, db)
    /\ NoDup names
    /\ (forall c, c ∈ names <-> exists r, r ∈ prompts db /\ c_category r = c)
    /\ (forall c, c ∈ names <-> is_Some (categories stats !! c)).
Proof.
  exists (remove_dups (category_column db)). eexists.
  split; [done|]. split; [apply get_stats_unfold|].
  split; [apply NoDup_remove_dups|]. cbn [categories].
  assert (Hmem : forall c, c ∈ remove_dups (category_column db)
                           <-> exists r, r ∈ prompts db /\ c_category r = c).
  { intros c. rewrite elem_of_remove_dups. unfold category_column.
    rewrite list_elem_of_fmap. split.
    - intros (r & -> & Hr). by exists r.
    - intros (r & Hr & <-). by exists r. }
  split; [exact Hmem|]. intros c. rewrite stats_lookup, elem_of_remove_dups.
  destruct (decide _) as [Hc|Hc]; split; intros Hsome;
    [by eexists | exact Hc | by destruct Hc | by destruct Hsome].
Qed.

(** ** Fetches and the view counter *)

Section view_counter.

Variable texts : nat -> string.

Implicit Types (db : Database) (r : Row) (req : Request) (rows : list Row).

Lemma count_view_rows prompt_id db :
  prompts (count_view prompt_id db)
  = map (count_view_row prompt_id) (prompts db).
Proof. reflexivity. Qed.

Lemma count_view_row_id a r : c_id (count_view_row a r) = c_id r.
Proof. unfold count_view_row. by destruct (_ =? _). Qed.

Lemma count_view_row_comm a b r :
  count_view_row a (count_view_row b r) = count_view_row b (count_view_row a r).
Proof.
  unfold count_view_row.
  destruct (c_id r =? a) eqn:Ha, (c_id r =? b) eqn:Hb;
    cbn [views_plus_1 c_id]; rewrite ?Ha, ?Hb; done.
Qed.

Lemma count_view_comm a b db :
  count_view a (count_view b db) = count_view b (count_view a db).
Proof.
  unfold count_view. cbn [prompts prompts_id_seq]. f_equal.
  rewrite !map_map. apply map_ext. intros r. apply count_view_row_comm.
Qed.

(** An update keeps the keys, so it keeps what a point query finds, up
    to the update itself. *)
Lemma filter_id_map_count_view a b rows :
  filter (fun r => c_id r =? a) (map (count_view_row b) rows)
  = map (count_view_row b) (filter (fun r => c_id r =? a) rows).
Proof.
  induction rows as [|x rows IH]; [done|].
  cbn [map]. rewrite !filter_cons, count_view_row_id.
  destruct (decide _); cbn [map]; by rewrite IH.
Qed.

Lemma head_filter_count_view a b db :
  head (filter (fun r => c_id r =? a) (prompts (count_view b db)))
  = count_view_row b <$> head (filter (fun r => c_id r =? a) (prompts db)).
Proof.
  rewrite count_view_rows, filter_id_map_count_view.
  by destruct (filter _ (prompts db)).
Qed.

Lemma head_filter_id_found prompt_id rows r :
  r ∈ rows -> c_id r = prompt_id ->
  is_Some (head (filter (fun x => c_id x =? prompt_id) rows)).
Proof.
  intros Hr Hid.
  assert (Hin : r ∈ filter (fun x => c_id x =? prompt_id) rows).
  { apply list_elem_of_filter. split; [|done].
    apply Is_true_true, Z.eqb_eq, Hid. }
  destruct (filter _ rows); [by apply elem_of_nil in Hin | by eexists].
Qed.

(** The database after a fetch: counted when the key is stored. *)
Lemma get_prompt_db_stored prompt_id db r :
  r ∈ prompts db -> c_id r = prompt_id ->
  snd (get_prompt prompt_id db) = count_view prompt_id db.
Proof.
  intros Hr Hid. rewrite get_prompt_unfold.
  by destruct (head_filter_id_found prompt_id _ r Hr Hid) as [x ->].
Qed.

Lemma serve_step_exact req db (i : nat) r :
  prompts db !! i = Some r ->
  prompts (snd (serve texts req db)) !! i
  = Some (with_views (c_views r + Z.of_nat (fetches_of (c_id r) [req])) r).
Proof.
  intros Hr.
  assert (Hsame : with_views (c_views r + Z.of_nat 0) r = r)
    by (cbn; rewrite Z.add_0_r; by destruct r).
  destruct (serve_effect texts req db) as [[rows Hrows] | (pid & -> & Hdb)].
  - rewrite Hrows, lookup_app_l by (by eapply lookup_lt_Some).
    rewrite Hr. f_equal.
    destruct req as [? ? | ? | pid | | | ?]; cbn [fetches_of];
      try by rewrite Hsame.
    rewrite Nat.add_0_r. destruct (pid =? c_id r) eqn:Hpid; [|by rewrite Hsame].
    exfalso. apply Z.eqb_eq in Hpid.
    assert (Hin : r ∈ prompts db) by (by eapply list_elem_of_lookup_2).
    pose proof (get_prompt_db_stored pid db r Hin (eq_sym Hpid)) as Hdb.
    cbn [serve] in Hrows. rewrite fmap_handler_db, Hdb in Hrows.
    assert (Hat : prompts (count_view pid db) !! i = Some (views_plus_1 r)).
    { rewrite count_view_rows, list_lookup_fmap, Hr. cbn.
      unfold count_view_row. by rewrite Hpid, Z.eqb_refl. }
    rewrite Hrows, lookup_app_l, Hr in Hat by (by eapply lookup_lt_Some).
    injection Hat as Hat. apply (f_equal c_views) in Hat. cbn in Hat. lia.
  - rewrite Hdb, count_view_rows, list_lookup_fmap, Hr. cbn [fmap option_fmap option_map].
    f_equal. unfold count_view_row. cbn [fetches_of].
    rewrite Nat.add_0_r, (Z.eqb_sym pid).
    destruct (c_id r =? pid); [|by rewrite Hsame].
    unfold views_plus_1, with_views. by destruct r.
Qed.

End view_counter.

(** X4: the view counter counts fetches.  After any sequence of requests
    a stored row is still at its place, with [views] increased by the
    number of requests in the sequence that fetch its key and every
    other field as it was. *)
Theorem views_count_fetches
    (texts : nat -> string) (reqs : list Request) (db : Database)
    (i : nat) (r : Row) :
  prompts db !! i = Some r ->
  prompts (serve_all texts reqs db) !! i
  = Some (with_views (c_views r + Z.of_nat (fetches_of (c_id r) reqs)) r).
Proof.
  revert db r. induction reqs as [|req reqs IH]; intros db r Hr.
  - cbn. rewrite Hr, Z.add_0_r. by destruct r.
  - cbn [serve_all fold_left].
    pose proof (serve_step_exact texts req db i r Hr) as Hstep.
    fold (serve_all texts reqs (snd (serve texts req db))).
    rewrite (IH _ _ Hstep). f_equal. cbn [with_views c_views c_id].
    unfold with_views. cbn. f_equal.
    destruct req as [? ? | ? | pid | | | ?]; cbn [fetches_of]; lia.
Qed.

Lemma views_count_fetches_witness :
  prompts sample_db !! 1%nat = Some mental_row
  /\ prompts (serve_all sample_texts
                [GET_prompt 2; GET_stats; GET_prompt 1; GET_prompt 2;
                 POST_prompts hello_body 30]
                sample_db) !! 1%nat
     = Some (with_views 5 mental_row).
Proof.
  split; [reflexivity|].
  exact (views_count_fetches sample_texts
           [GET_prompt 2; GET_stats; GET_prompt 1; GET_prompt 2;
            POST_prompts hello_body 30]
           sample_db 1%nat mental_row eq_refl).
Defined.

(** X5: fetches of two keys commute: the database after both is the
    same in either order, and the answer to a fetch of one key is not
    changed by an earlier fetch of another key. *)
Theorem get_prompt_commutes (a b : Z) (db : Database) :
  snd (get_prompt a (snd (get_prompt b db)))
  = snd (get_prompt b (snd (get_prompt a db)))
  /\ (a <> b ->
      fst (get_prompt a (snd (get_prompt b db))) = fst (get_prompt a db)).
Proof.
  assert (Hafter : forall x y,
            get_prompt x (snd (get_prompt y db))
            = match head (filter (fun r => c_id r =? y) (prompts db)) with
              | Some _ =>
                  match head (filter (fun r => c_id r =? x) (prompts db)) with
                  | Some r => (Ok (views_plus_1 (count_view_row y r)),
                               count_view x (count_view y db))
                  | None => (Raise (HTTPException 404 "Prompt not found"),
                             count_view y db)
                  end
              | None => get_prompt x db
              end).
  { intros x y. rewrite (get_prompt_unfold y db).
    destruct (head (filter (fun r => c_id r =? y) (prompts db))); [|done].
    cbn [snd]. rewrite get_prompt_unfold, head_filter_count_view.
    by destruct (head (filter (fun r => c_id r =? x) (prompts db))). }
  split.
  - rewrite (Hafter a b), (Hafter b a), !get_prompt_unfold.
    destruct (head (filter (fun r => c_id r =? a) (prompts db))),
             (head (filter (fun r => c_id r =? b) (prompts db)));
      cbn [snd]; try done.
    apply count_view_comm.
  - intros Hab. rewrite (Hafter a b), get_prompt_unfold.
    destruct (head (filter (fun r => c_id r =? b) (prompts db))) as [rb|];
      [|done].
    destruct (head (filter (fun r => c_id r =? a) (prompts db)))
      as [ra|] eqn:Hra; [|done].
    cbn [fst]. do 2 f_equal. unfold count_view_row.
    assert (Hid : c_id ra = a).
    { apply head_Some_elem_of, list_elem_of_filter in Hra as [Hra _].
      by apply Is_true_true, Z.eqb_eq in Hra. }
    rewrite Hid. by destruct (Z.eqb_spec a b).
Qed.

Lemma get_prompt_commutes_witness :
  fst (get_prompt 1 (snd (get_prompt 2 sample_db)))
  = fst (get_prompt 1 sample_db).
Proof.
  apply (get_prompt_commutes 1 2 sample_db). discriminate.
Defined.

(** ** Creating, then reading *)



Section stats_after.

Implicit Types (db : Database) (r : Row) (c : string).



Lemma category_column_count_view prompt_id db :
  category_column (count_view prompt_id db) = category_column db.
Proof.
  unfold category_column. cbn [count_view prompts]. rewrite map_map.
  apply map_ext. intros r. by destruct (_ =? _).
Qed.

End stats_after.



(** X8: a fetch by key changes no category: after [get_prompt], found or
    not, [get_categories] and [get_stats] answer as before. *)
Theorem get_prompt_keeps_statistics (prompt_id : Z) (db : Database) :
  fst (get_categories (snd (get_prompt prompt_id db))) = fst (get_categories db)
  /\ fst (get_stats (snd (get_prompt prompt_id db))) = fst (get_stats db).
Proof.
  destruct (get_prompt_db prompt_id db) as [-> | ->]; [done|].
  rewrite !get_stats_unfold. cbn [fst].
  change (fst (get_categories (count_view prompt_id db)))
    with (Ok (remove_dups (category_column (count_view prompt_id db)))).
  change (fst (get_categories db)) with (Ok (remove_dups (category_column db))).
  unfold category_count. rewrite !category_column_count_view.
  split; [done|]. do 3 f_equal.
  rewrite count_view_rows. by rewrite length_map.
Qed.

(** ** Pages *)

Section pages.

Implicit Types (db : Database) (p : Params) (rows : list Row).

Lemma page_append (l1 l2 o : Z) rows :
  0 <= l1 -> 0 <= l2 -> 0 <= o ->
  page l1 o rows ++ page l2 (o + l1) rows = page (l1 + l2) o rows.
Proof.
  intros Hl1 Hl2 Ho. unfold page.
  rewrite !Z2Nat.inj_add by lia. rewrite <- drop_drop. apply take_take_drop.
Qed.

Lemma selection_length category search sort db :
  (length (selection category search sort db) <= length (prompts db))%nat.
Proof.
  unfold selection.
  rewrite (Permutation_length (merge_sort_Permutation _ _)).
  apply length_filter.
Qed.

Lemma selection_elem category search sort db r :
  r ∈ selection category search sort db
  <-> r ∈ prompts db
      /\ category_clause category r = true /\ search_clause search r = true.
Proof.
  unfold selection. rewrite merge_sort_Permutation, list_elem_of_filter.
  rewrite <- andb_true_iff, Is_true_true. tauto.
Qed.

Lemma filter_all (f : Row -> bool) rows :
  (forall r, f r = true) -> filter (fun r => f r) rows = rows.
Proof.
  intros Hall. induction rows as [|x rows IH]; [done|].
  rewrite filter_cons, decide_True by (by rewrite Hall). by rewrite IH.
Qed.

(** The page of a request that covers the table is the whole selection. *)
Lemma list_prompts_covering p db :
  sort_regex (sort_of p) = true ->
  offset_of p = 0 ->
  Z.of_nat (length (prompts db)) <= limit_of p <= 500 ->
  list_prompts p db
  = (Ok (selection (param_category p) (param_search p) (sort_of p) db), db).
Proof.
  intros Hsort Ho [Hlen Hl].
  rewrite list_prompts_ok; [|done|lia|lia].
  rewrite Ho, page_all; [done|].
  pose proof (selection_length (param_category p) (param_search p)
                (sort_of p) db). lia.
Qed.

End pages.

Section determined_order.

Implicit Types (rows ord : list Row) (column : Row -> Z).

Lemma non_increasing_tail column (x : Row) rows :
  non_increasing column (x :: rows) -> non_increasing column rows.
Proof.
  intros Hs i j a b Hij Hi Hj. apply (Hs (S i) (S j)); [lia|done..].
Qed.

Lemma non_increasing_StronglySorted column rows :
  non_increasing column rows -> StronglySorted (desc column) rows.
Proof.
  induction rows as [|x rows IH]; intros Hs; constructor.
  - apply IH. by eapply non_increasing_tail.
  - apply Forall_forall. intros y Hy.
    apply list_elem_of_lookup in Hy as [j Hj].
    apply (Hs 0%nat (S j)); [lia|done..].
Qed.

(** When no two rows tie, there is one answer to [ORDER BY]: every
    arrangement of the rows that is non-increasing in the column is the
    one the model computes. *)
Lemma order_determined column rows ord :
  (forall a b, a ∈ rows -> b ∈ rows -> column a = column b -> a = b) ->
  ord ≡ₚ rows ->
  non_increasing column ord ->
  ord = merge_sort (desc column) rows.
Proof.
  intros Hties Hperm Hsorted.
  apply (StronglySorted_unique_strong (desc column)).
  - intros x1 x2 Hx1 Hx2 H12 H21. unfold desc in H12, H21.
    apply Hties; [by rewrite <- Hperm | | lia].
    by rewrite merge_sort_Permutation in Hx2.
  - by apply non_increasing_StronglySorted.
  - apply StronglySorted_merge_sort; apply _.
  - by rewrite merge_sort_Permutation.
Qed.

Lemma no_ties_NoDup column (db : Database) :
  NoDup (map column (prompts db)) -> no_ties column db.
Proof.
  unfold no_ties. induction (prompts db) as [|x rows IH]; intros Hnd a b Ha Hb Hab.
  - by apply elem_of_nil in Ha.
  - cbn [map] in Hnd. apply NoDup_cons in Hnd as [Hx Hnd].
    apply elem_of_cons in Ha as [->|Ha]; apply elem_of_cons in Hb as [->|Hb].
    + done.
    + exfalso. apply Hx. rewrite Hab. by apply (list_elem_of_fmap_2 column).
    + exfalso. apply Hx. rewrite <- Hab. by apply (list_elem_of_fmap_2 column).
    + by apply IH.
Qed.

End determined_order.

(** X9: consecutive pages fit together when no two stored rows tie in
    the sort column, so that the order of the answer is determined.
    Then the page of [l1] rows at [o] followed by the page of [l2] rows
    at [o + l1] is the page of [l1 + l2] rows at [o], as long as that
    limit is allowed; and the pages are those cut out of any arrangement
    of the matching rows that is non-increasing in the sort column. *)
Theorem list_prompts_pages_append (p : Params) (db : Database) (l1 l2 o : Z) :
  sort_regex (sort_of p) = true ->
  0 <= l1 -> 0 <= l2 -> l1 + l2 <= 500 -> 0 <= o ->
  no_ties (sort_column (sort_of p)) db ->
  exists rows1 rows2,
    list_prompts (with_page l1 o p) db = (Ok rows1, db)
    /\ list_prompts (with_page l2 (o + l1) p) db = (Ok rows2, db)
    /\ list_prompts (with_page (l1 + l2) o p) db = (Ok (rows1 ++ rows2), db)
    /\ (forall ord,
          ord ≡ₚ matching (param_category p) (param_search p) db ->
          non_increasing (sort_column (sort_of p)) ord ->
          rows1 = page l1 o ord /\ rows2 = page l2 (o + l1) ord).
Proof.
  intros Hsort Hl1 Hl2 Hsum Ho Hties. do 2 eexists.
  split.
  { apply list_prompts_ok;
      [exact Hsort | change (0 <= l1 <= 500); lia | change (0 <= o); lia]. }
  split.
  { apply list_prompts_ok;
      [exact Hsort | change (0 <= l2 <= 500); lia | change (0 <= o + l1); lia]. }
  split.
  { rewrite list_prompts_ok;
      [|exact Hsort | change (0 <= l1 + l2 <= 500); lia | change (0 <= o); lia].
    f_equal. f_equal. symmetry. by apply page_append. }
  intros ord Hperm Hsorted.
  assert (Hord : ord = selection (param_category p) (param_search p)
                                 (sort_of p) db).
  { unfold selection. apply order_determined; [|exact Hperm|exact Hsorted].
    intros a b Ha Hb. apply Hties.
    - by apply list_elem_of_filter in Ha as [_ Ha].
    - by apply list_elem_of_filter in Hb as [_ Hb]. }
  by rewrite Hord.
Qed.

Lemma list_prompts_pages_append_witness :
  no_ties (sort_column "date") sample_db
  /\ exists rows1 rows2,
       list_prompts (with_page 1 0 no_params) sample_db = (Ok rows1, sample_db)
       /\ list_prompts (with_page 1 1 no_params) sample_db
          = (Ok rows2, sample_db)
       /\ list_prompts (with_page 2 0 no_params) sample_db
          = (Ok (rows1 ++ rows2), sample_db).
Proof.
  assert (Hties : no_ties (sort_column "date") sample_db).
  { apply no_ties_NoDup. by_evaluation. }
  split; [exact Hties|].
  destruct (list_prompts_pages_append no_params sample_db 1 1 0)
    as (rows1 & rows2 & H1 & H2 & H12 & _).
  - reflexivity.
  - vm_compute. discriminate.
  - vm_compute. discriminate.
  - vm_compute. discriminate.
  - vm_compute. discriminate.
  - exact Hties.
  - by exists rows1, rows2.
Defined.

(** X10: an offset at or past the number of stored rows gives the empty
    list, not an error. *)
Theorem list_prompts_offset_past_end (p : Params) (db : Database) :
  sort_regex (sort_of p) = true ->
  0 <= limit_of p <= 500 ->
  Z.of_nat (length (prompts db)) <= offset_of p ->
  list_prompts p db = (Ok [], db).
Proof.
  intros Hsort Hl Ho. rewrite list_prompts_ok; [|done|done|lia].
  unfold page. rewrite drop_ge; [by rewrite take_nil|].
  pose proof (selection_length (param_category p) (param_search p)
                (sort_of p) db). lia.
Qed.

Lemma list_prompts_offset_past_end_witness :
  list_prompts (with_page 10 2 no_params) sample_db = (Ok [], sample_db).
Proof.
  apply (list_prompts_offset_past_end (with_page 10 2 no_params) sample_db).
  - reflexivity.
  - vm_compute. split; discriminate.
  - vm_compute. discriminate.
Defined.

(** X11: without [category] and [search], from offset 0 and with a limit
    no smaller than the table, the answer is the whole table, each row
    once, reordered. *)
Theorem list_prompts_whole_table (p : Params) (db : Database) :
  param_category p = None ->
  param_search p = None ->
  sort_regex (sort_of p) = true ->
  offset_of p = 0 ->
  Z.of_nat (length (prompts db)) <= limit_of p <= 500 ->
  exists rows,
    list_prompts p db = (Ok rows, db) /\ rows ≡ₚ prompts db.
Proof.
  intros Hcat Hsearch Hsort Ho Hl. eexists.
  split; [by apply list_prompts_covering|].
  unfold selection. rewrite merge_sort_Permutation, Hcat, Hsearch.
  cbn [category_clause search_clause andb].
  by rewrite (filter_all (fun _ => true)).
Qed.

Lemma list_prompts_whole_table_witness :
  exists rows,
    list_prompts no_params sample_db = (Ok rows, sample_db)
    /\ rows ≡ₚ prompts sample_db.
Proof.
  apply (list_prompts_whole_table no_params sample_db).
  - reflexivity.
  - reflexivity.
  - reflexivity.
  - reflexivity.
  - vm_compute. split; discriminate.
Defined.

(** X12: the sort mode only reorders: two requests that differ in [sort]
    alone and cover the table return the same rows, each as often, in
    possibly different order. *)
Theorem list_prompts_sort_reorders
    (p : Params) (db : Database) (sort1 sort2 : option string) :
  sort_regex (sort_of (with_sort sort1 p)) = true ->
  sort_regex (sort_of (with_sort sort2 p)) = true ->
  offset_of p = 0 ->
  Z.of_nat (length (prompts db)) <= limit_of p <= 500 ->
  exists rows1 rows2,
    list_prompts (with_sort sort1 p) db = (Ok rows1, db)
    /\ list_prompts (with_sort sort2 p) db = (Ok rows2, db)
    /\ rows1 ≡ₚ rows2.
Proof.
  intros Hs1 Hs2 Ho Hl. do 2 eexists.
  split; [by apply list_prompts_covering|].
  split; [by apply list_prompts_covering|].
  unfold selection. by rewrite !merge_sort_Permutation.
Qed.

Lemma list_prompts_sort_reorders_witness :
  exists rows1 rows2,
    list_prompts (with_sort (Some "date"%string) no_params) sample_db
    = (Ok rows1, sample_db)
    /\ list_prompts (with_sort (Some "popularity"%string) no_params) sample_db
       = (Ok rows2, sample_db)
    /\ rows1 ≡ₚ rows2.
Proof.
  apply (list_prompts_sort_reorders no_params sample_db).
  - reflexivity.
  - reflexivity.
  - reflexivity.
  - vm_compute. split; discriminate.
Defined.

(** X13: the two filters combine as a conjunction: when the requests
    cover the table, a row is in the answer to [category] and [search]
    together exactly when it is in the answer to [category] alone and in
    the answer to [search] alone. *)
Theorem list_prompts_filters_intersect (p : Params) (db : Database) (r : Row) :
  sort_regex (sort_of p) = true ->
  offset_of p = 0 ->
  Z.of_nat (length (prompts db)) <= limit_of p <= 500 ->
  exists both by_category by_search,
    list_prompts p db = (Ok both, db)
    /\ list_prompts (with_search None p) db = (Ok by_category, db)
    /\ list_prompts (with_category None p) db = (Ok by_search, db)
    /\ (r ∈ both <-> r ∈ by_category /\ r ∈ by_search).
Proof.
  intros Hsort Ho Hl. do 3 eexists.
  split; [by apply list_prompts_covering|].
  split; [by apply list_prompts_covering|].
  split; [by apply list_prompts_covering|].
  rewrite !selection_elem.
  cbn [with_search with_category param_category param_search
       category_clause search_clause].
  tauto.
Qed.

Lemma list_prompts_filters_intersect_witness :
  exists both by_category by_search,
    list_prompts (mkParams (Some "Y"%string) (Some "mental"%string)
                           None None None) sample_db
    = (Ok both, sample_db)
    /\ list_prompts (mkParams (Some "Y"%string) None None None None) sample_db
       = (Ok by_category, sample_db)
    /\ list_prompts (mkParams None (Some "mental"%string) None None None)
                    sample_db
       = (Ok by_search, sample_db)
    /\ (mental_row ∈ both <-> mental_row ∈ by_category /\ mental_row ∈ by_search).
Proof.
  apply (list_prompts_filters_intersect
           (mkParams (Some "Y"%string) (Some "mental"%string) None None None)
           sample_db mental_row).
  - reflexivity.
  - reflexivity.
  - vm_compute. split; discriminate.
Defined.

(** ** More on searching *)

Section more_patterns.

Implicit Types (p t a b : list ascii) (c : ascii) (s : string).

Lemma like_underscore_cons p t :
  like ("_"%char :: p) t
  = match t with [] => false | _ :: t' => like p t' end.
Proof. reflexivity. Qed.

Lemma like_percent_skip p a t :
  like ("%"%char :: p) t = true -> like ("%"%char :: p) (a ++ t) = true.
Proof.
  intros Ht. induction a as [|x a IH]; [done|].
  cbn [app]. rewrite like_percent_unfold, IH. apply orb_true_r.
Qed.

(** A pattern without backslash matches its own text, whatever
    wildcards it has. *)
Lemma like_self_prefix p :
  forallb (fun c => negb (Ascii.eqb c "\"%char)) p = true ->
  forall q t, like q t = true -> like (p ++ q) (p ++ t) = true.
Proof.
  induction p as [|c p IH]; intros Hp q t Hq; [done|].
  cbn [forallb] in Hp. apply andb_true_iff in Hp as [Hc Hp].
  apply negb_true_iff in Hc. cbn [app].
  destruct (Ascii.eqb c "%"%char) eqn:Hpercent.
  - apply Ascii.eqb_eq in Hpercent as ->.
    rewrite like_percent_unfold.
    apply orb_true_iff. right.
    rewrite like_percent_unfold. apply orb_true_iff. left. by apply IH.
  - destruct (Ascii.eqb c "_"%char) eqn:Hunder.
    + apply Ascii.eqb_eq in Hunder as ->. rewrite like_underscore_cons.
      by apply IH.
    + rewrite like_literal_cons.
      * rewrite Ascii.eqb_refl. by apply IH.
      * unfold like_meta. by rewrite Hpercent, Hunder, Hc.
Qed.

Lemma like_contains_literal p t :
  forallb (fun c => negb (Ascii.eqb c "\"%char)) p = true ->
  occurs_in p t = true ->
  like ("%"%char :: p ++ ["%"%char]) t = true.
Proof.
  intros Hp Hocc. apply occurs_in_spec in Hocc as (a & b & ->).
  apply like_percent_skip. rewrite like_percent_unfold.
  apply orb_true_iff. left.
  apply like_self_prefix; [done|]. apply like_percent_only.
Qed.

Lemma lower_char_backslash c :
  Ascii.eqb (lower_char c) "\"%char = Ascii.eqb c "\"%char.
Proof. by destruct c as [[] [] [] [] [] [] [] []]. Qed.

Lemma lower_chars_backslash_free t :
  forallb (fun c => negb (Ascii.eqb c "\"%char)) (lower_chars t)
  = forallb (fun c => negb (Ascii.eqb c "\"%char)) t.
Proof.
  induction t as [|c t IH]; [done|].
  cbn [lower_chars map forallb]. fold (lower_chars t).
  by rewrite lower_char_backslash, IH.
Qed.

Lemma ilike_finds_literal term text :
  backslash_free term = true ->
  contains_ci term text = true ->
  ilike text ("%" ++ lower term ++ "%") = true.
Proof.
  intros Hfree Hocc. unfold ilike. rewrite search_term_chars.
  apply like_contains_literal; [|exact Hocc].
  by rewrite lower_chars_backslash_free.
Qed.

Lemma lower_empty s : lower s = EmptyString <-> s = EmptyString.
Proof. destruct s; [done|]. split; intros H; discriminate H. Qed.

Lemma truthy_lower s s' : lower s = lower s' -> truthy s = truthy s'.
Proof.
  intros Hlower. unfold truthy. f_equal.
  destruct (String.eqb_spec s EmptyString) as [Hs|Hs],
           (String.eqb_spec s' EmptyString) as [Hs'|Hs']; try done.
  - exfalso. apply Hs', lower_empty. rewrite <- Hlower. by apply lower_empty.
  - exfalso. apply Hs, lower_empty. rewrite Hlower. by apply lower_empty.
Qed.

Lemma json_char_plain c : json_plain c = true -> json_char c = [c].
Proof. destruct c as [[] [] [] [] [] [] [] []]; by intros H. Qed.

Lemma json_plain_backslash c :
  json_plain c = true -> negb (Ascii.eqb c "\"%char) = true.
Proof.
  unfold json_plain. intros H. by apply andb_true_iff in H as [_ H].
Qed.

Lemma flat_map_json_plain t :
  forallb json_plain t = true -> flat_map json_char t = t.
Proof.
  induction t as [|c t IH]; [done|]. cbn [forallb flat_map].
  intros [Hc Ht]%andb_true_iff. by rewrite (json_char_plain _ Hc), IH.
Qed.

Lemma plain_text_backslash_free s :
  plain_text s = true -> backslash_free s = true.
Proof.
  unfold plain_text, backslash_free.
  induction (list_ascii_of_string s) as [|c t IH]; [done|].
  cbn [forallb]. intros [Hc Ht]%andb_true_iff.
  by rewrite (json_plain_backslash _ Hc), IH.
Qed.

(** The JSON text of a list has each of its items between quotes. *)
Lemma json_items_item (items : list string) s :
  s ∈ items -> exists a b, json_items items = a ++ json_string s ++ b.
Proof.
  induction items as [|x items IH]; intros Hs; [by apply elem_of_nil in Hs|].
  apply elem_of_cons in Hs as [->|Hs].
  - destruct items as [|y items].
    + exists [], []. cbn [json_items app]. by rewrite app_nil_r.
    + exists [], ([","; " "]%char ++ json_items (y :: items)).
      by cbn [json_items app].
  - destruct (IH Hs) as (a & b & Hab). destruct items as [|y items].
    + by apply elem_of_nil in Hs.
    + exists (json_string x ++ [","; " "]%char ++ a), b.
      change (json_items (x :: y :: items))
        with (json_string x ++ [","; " "]%char ++ json_items (y :: items)).
      rewrite Hab. by rewrite <- !app_assoc.
Qed.

Lemma contains_ci_tag (items : list string) s :
  s ∈ items -> plain_text s = true ->
  contains_ci s (json_dumps items) = true.
Proof.
  intros Hs Hplain. unfold contains_ci, json_dumps.
  rewrite list_ascii_of_string_of_list_ascii.
  destruct (json_items_item items s Hs) as (a & b & Hab).
  rewrite Hab. unfold json_string.
  rewrite (flat_map_json_plain _ Hplain).
  apply occurs_in_spec.
  exists (lower_chars ("["%char :: a ++ [dquote])),
         (lower_chars (dquote :: b ++ ["]"%char])).
  unfold lower_chars. rewrite <- !map_app. f_equal.
  cbn [app]. rewrite <- !app_assoc. do 2 f_equal.
  cbn [app]. by rewrite <- !app_assoc.
Qed.

End more_patterns.

Section more_searching.

Implicit Types (db : Database) (r : Row) (p : Params).

Lemma search_clause_literal (term : string) r :
  backslash_free term = true ->
  matches_search term r = true ->
  search_clause (Some term) r = true.
Proof.
  intros Hfree Hm. unfold search_clause.
  destruct (truthy term); [|done]. cbv zeta.
  unfold matches_search in Hm.
  apply orb_true_iff in Hm as [Hm|Hm];
    [apply orb_true_iff in Hm as [Hm|Hm]|].
  - by rewrite (ilike_finds_literal _ _ Hfree Hm).
  - rewrite (ilike_finds_literal _ (c_prompt_text r) Hfree Hm).
    by rewrite orb_true_r.
  - rewrite (ilike_finds_literal _ (cast_tags_String r) Hfree Hm).
    by rewrite orb_true_r.
Qed.

Lemma category_is_clause (category : option string) r :
  category_is category r = true -> category_clause category r = true.
Proof.
  destruct category as [c|]; [|done]. cbn. intros ->. by destruct (truthy c).
Qed.

End more_searching.

(** X14: the case of the search term does not matter: two terms with
    the same lower-case form give the same answer. *)
Theorem list_prompts_search_ignores_case
    (p : Params) (db : Database) (s s' : string) :
  lower s = lower s' ->
  list_prompts (with_search (Some s) p) db
  = list_prompts (with_search (Some s') p) db.
Proof.
  intros Hlower. unfold list_prompts, get_prompts.
  cbn [with_search param_search param_category param_sort param_limit
       param_offset].
  by rewrite (truthy_lower _ _ Hlower), Hlower.
Qed.

Lemma list_prompts_search_ignores_case_witness :
  list_prompts (with_search (Some "MENTAL health"%string) no_params) sample_db
  = list_prompts (with_search (Some "Mental Health"%string) no_params) sample_db.
Proof.
  apply (list_prompts_search_ignores_case no_params sample_db).
  reflexivity.
Defined.

(** X15: wildcards only add rows.  For a term without backslash, a row
    in which the term occurs literally, case ignored, in the title, the
    prompt text or the text of the tags, and which has the requested
    category, is in the answer of a request that covers the table. *)
Theorem list_prompts_finds_occurrences
    (p : Params) (db : Database) (term : string) (r : Row) :
  param_search p = Some term ->
  backslash_free term = true ->
  r ∈ prompts db ->
  category_is (param_category p) r = true ->
  matches_search term r = true ->
  sort_regex (sort_of p) = true ->
  offset_of p = 0 ->
  Z.of_nat (length (prompts db)) <= limit_of p <= 500 ->
  exists rows, list_prompts p db = (Ok rows, db) /\ r ∈ rows.
Proof.
  intros Hsearch Hfree Hr Hcat Hm Hsort Ho Hl. eexists.
  split; [by apply list_prompts_covering|].
  apply selection_elem. split; [done|]. split.
  - by apply category_is_clause.
  - rewrite Hsearch. by apply search_clause_literal.
Qed.

Lemma list_prompts_finds_occurrences_witness :
  exists rows,
    list_prompts (with_search (Some "100%_"%string) no_params)
      {| prompts := [mkRow 1 "Is it 100%_sure?" "..." "X" [] None 0 10];
         prompts_id_seq := 2 |}
    = (Ok rows,
       {| prompts := [mkRow 1 "Is it 100%_sure?" "..." "X" [] None 0 10];
          prompts_id_seq := 2 |})
    /\ mkRow 1 "Is it 100%_sure?" "..." "X" [] None 0 10 ∈ rows.
Proof.
  apply (list_prompts_finds_occurrences
           (with_search (Some "100%_"%string) no_params) _ "100%_").
  - reflexivity.
  - reflexivity.
  - left.
  - reflexivity.
  - reflexivity.
  - reflexivity.
  - reflexivity.
  - vm_compute. split; discriminate.
Defined.

(** X16: a prompt is found by any of its tags: when the search term is
    one of the row's tags, written in printable characters without quote
    and backslash, the row is in the answer of a request without
    category that covers the table. *)
Theorem list_prompts_finds_tag
    (p : Params) (db : Database) (tag : string) (r : Row) :
  param_search p = Some tag ->
  param_category p = None ->
  r ∈ prompts db ->
  tag ∈ c_tags r ->
  plain_text tag = true ->
  sort_regex (sort_of p) = true ->
  offset_of p = 0 ->
  Z.of_nat (length (prompts db)) <= limit_of p <= 500 ->
  exists rows, list_prompts p db = (Ok rows, db) /\ r ∈ rows.
Proof.
  intros Hsearch Hcat Hr Htag Hplain Hsort Ho Hl. eexists.
  split; [by apply list_prompts_covering|].
  apply selection_elem. split; [done|]. split.
  - by rewrite Hcat.
  - rewrite Hsearch. apply search_clause_literal.
    + by apply plain_text_backslash_free.
    + unfold matches_search, cast_tags_String.
      rewrite (contains_ci_tag _ _ Htag Hplain). apply orb_true_r.
Qed.

Lemma list_prompts_finds_tag_witness :
  exists rows,
    list_prompts (with_search (Some "wellbeing"%string) no_params) sample_db
    = (Ok rows, sample_db)
    /\ mental_row ∈ rows.
Proof.
  apply (list_prompts_finds_tag
           (with_search (Some "wellbeing"%string) no_params) sample_db
           "wellbeing" mental_row).
  - reflexivity.
  - reflexivity.
  - right; left.
  - right; left.
  - reflexivity.
  - reflexivity.
  - reflexivity.
  - vm_compute. split; discriminate.
Defined.

(** ** What a fetch can answer *)

(** X17: [get_prompt] answers with a row or with the 404 exception,
    never with a server error; a row it returns has the requested key,
    is a stored row with one more view, and is in the database the
    fetch leaves behind. *)
Theorem get_prompt_answers (prompt_id : Z) (db : Database) :
  (fst (get_prompt prompt_id db)
   = Raise (HTTPException 404 "Prompt not found")
   /\ snd (get_prompt prompt_id db) = db
   /\ ~ present prompt_id db)
  \/ (exists r,
        r ∈ prompts db
        /\ c_id r = prompt_id
        /\ fst (get_prompt prompt_id db) = Ok (with_views (c_views r + 1) r)
        /\ with_views (c_views r + 1) r
             ∈ prompts (snd (get_prompt prompt_id db))).
Proof.
  rewrite get_prompt_unfold.
  destruct (head (filter (fun r => c_id r =? prompt_id) (prompts db)))
    as [r|] eqn:Hhead.
  - right. exists r.
    apply head_Some_elem_of, list_elem_of_filter in Hhead as [Hid Hr].
    apply Is_true_true, Z.eqb_eq in Hid.
    split; [done|]. split; [done|]. split; [done|]. cbn [snd].
    pose proof (count_view_elem prompt_id db r Hr) as Hel.
    rewrite Hid, Z.eqb_refl in Hel. exact Hel.
  - left. split; [done|]. split; [done|].
    intros (r & Hr & Hid).
    destruct (head_filter_id_found prompt_id _ r Hr Hid) as [x Hx].
    by rewrite Hx in Hhead.
Qed.

(** ** Reachable databases *)

(** X18: the keys stay distinct.  Serving any sequence of requests from
    a database whose keys are distinct and below the sequence, the empty
    one in particular, gives such a database again. *)
Theorem reachable_consistent
    (texts : nat -> string) (reqs : list Request) (db : Database) :
  consistent (serve_all texts reqs empty_database)
  /\ (consistent db -> consistent (serve_all texts reqs db)).
Proof.
  split.
  - apply serve_all_consistent, empty_database_consistent.
  - apply serve_all_consistent.
Qed.

Lemma reachable_consistent_witness :
  consistent sample_db
  /\ consistent (serve_all sample_texts
                   [POST_prompts hello_body 30; GET_prompt 3;
                    Startup sample_clock]
                   sample_db).
Proof.
  assert (Hc : consistent sample_db) by by_evaluation.
  split; [exact Hc|].
  exact (proj2 (reachable_consistent sample_texts
                  [POST_prompts hello_body 30; GET_prompt 3;
                   Startup sample_clock]
                  sample_db) Hc).
Defined.

(** ** The first page *)

(** X19: the first page holds the top of the order: in the answer to a
    request from offset 0, every returned row has a value in the sort
    column at least as large as that of any stored row that passes the
    filters and was not returned. *)
Theorem list_prompts_first_page_is_top
    (p : Params) (db : Database) (rows : list Row) (a b : Row) :
  fst (list_prompts p db) = Ok rows ->
  offset_of p = 0 ->
  a ∈ rows ->
  b ∈ prompts db ->
  category_clause (param_category p) b = true ->
  search_clause (param_search p) b = true ->
  b ∉ rows ->
  sort_column (sort_of p) b <= sort_column (sort_of p) a.
Proof.
  intros Hrows Ho Ha Hb Hcat Hsearch Hnot.
  destruct (list_prompts_cases p db) as [H|[H|[Hl H]]];
    rewrite H in Hrows; cbn [fst] in Hrows; try discriminate.
  injection Hrows as <-. rewrite Ho in *. unfold page in *.
  rewrite drop_0 in *.
  set (sel := selection (param_category p) (param_search p) (sort_of p) db)
    in *.
  assert (Hsel : b ∈ sel) by (by apply selection_elem).
  apply elem_of_take in Ha as (i & Hi & Hlt).
  apply list_elem_of_lookup in Hsel as [j Hj].
  destruct (decide (j < Z.to_nat (limit_of p))%nat) as [Hin|Hout].
  - exfalso. apply Hnot. apply elem_of_take. by exists j.
  - apply (merge_sort_non_increasing (sort_column (sort_of p))
             (filter (fun r => category_clause (param_category p) r
                               && search_clause (param_search p) r)
                     (prompts db)) i j a b); [lia|exact Hi|exact Hj].
Qed.

Lemma list_prompts_first_page_is_top_witness :
  fst (list_prompts (with_limit (Some 1) no_params) sample_db)
  = Ok [mental_row]
  /\ sort_column "date" hello_row <= sort_column "date" mental_row.
Proof.
  assert (Hrows : fst (list_prompts (with_limit (Some 1) no_params) sample_db)
                  = Ok [mental_row]) by (by vm_compute).
  split; [exact Hrows|].
  apply (list_prompts_first_page_is_top
           (with_limit (Some 1) no_params) sample_db [mental_row]
           mental_row hello_row).
  - exact Hrows.
  - reflexivity.
  - left.
  - left.
  - reflexivity.
  - reflexivity.
  - intros Hin. apply list_elem_of_singleton in Hin. discriminate Hin.
Defined.
